(** * Rotating triangle: a shallow embedding of [src/rotating_triangle/main.cpp]

    The program is one [main] that drives GLFW and OpenGL through a linear
    setup followed by a render loop.  The embedding is a state monad over an
    explicit [State]: the log of library calls, the part of the GLFW and GL
    state the program can observe or change, and the two console streams.
    Everything the outside decides (whether a file opens, what the driver
    says about a shader, when the user closes the window, what the timer
    shows, what the C library answers for a cosine) is read from a [World].

    C++ [float] and [double] are the IEEE 754 formats binary32 and binary64,
    as [spec_float] of the standard library has them, with its operations:
    every addition, subtraction, multiplication, division and square root
    rounds its exact result to the nearest number of the format (ties to
    even), and [(float)d] rounds a [double] to the nearest [float].  An
    expression is evaluated in the precision of its type, one operation at
    a time. *)

From Stdlib Require Import ZArith List String Ascii Bool Lia SpecFloat.
From stdpp Require Import gmap strings.
Import ListNotations.

Local Open Scope string_scope.
Local Open Scope list_scope.
Local Open Scope Z_scope.

(** ** Numbers *)

Definition float : Type := spec_float.
Definition double : Type := spec_float.

(** A number of a format: a zero, or finite with a canonical mantissa. *)
Definition is_number (prec emax : Z) (x : spec_float) : bool :=
  match x with
  | S754_zero _ => true
  | S754_finite _ m e => bounded prec emax m e
  | _ => false
  end.

(** A number of a format whose magnitude is below [2 ^ k]. *)
Definition below (prec emax k : Z) (x : spec_float) : bool :=
  match x with
  | S754_zero _ => true
  | S754_finite _ m e => bounded prec emax m e && (Zpos (digits2_pos m) + e <=? k)
  | _ => false
  end.

(** binary32: a mantissa of 24 bits, exponents below 128. *)
Module F32.

Definition prec : Z := 24.
Definition emax : Z := 128.

Definition add : float -> float -> float := SFadd prec emax.
Definition sub : float -> float -> float := SFsub prec emax.
Definition mul : float -> float -> float := SFmul prec emax.
Definition div : float -> float -> float := SFdiv prec emax.
Definition sqrt : float -> float := SFsqrt prec emax.
Definition neg : float -> float := SFopp.

(** The [float] nearest to [m * 2 ^ e]. *)
Definition lit (m e : Z) : float := binary_normalize prec emax m e false.

Definition of_Z (z : Z) : float := lit z 0.

Definition zero : float := S754_zero false.
Definition one : float := of_Z 1.

(** [x == y]: the two zeros are equal, a NaN equals nothing. *)
Definition eqb : float -> float -> bool := SFeqb.


(** A number of the format: a zero, or finite with a canonical mantissa. *)
Definition is_number : float -> bool := is_number prec emax.

(** A number of the format whose magnitude is below [2 ^ k]. *)
Definition below (k : Z) : float -> bool := below prec emax k.

End F32.

(** binary64: a mantissa of 53 bits, exponents below 1024. *)
Module F64.

Definition prec : Z := 53.
Definition emax : Z := 1024.

Definition div : double -> double -> double := SFdiv prec emax.

(** The [double] nearest to [m * 2 ^ e]. *)
Definition lit (m e : Z) : double := binary_normalize prec emax m e false.

Definition of_Z (z : Z) : double := lit z 0.

End F64.

Declare Scope f32_scope.
Delimit Scope f32_scope with f32.
Notation "0" := F32.zero : f32_scope.
Notation "1" := F32.one : f32_scope.
Notation "x + y" := (F32.add x y) : f32_scope.
Notation "x - y" := (F32.sub x y) : f32_scope.
Notation "x * y" := (F32.mul x y) : f32_scope.
Notation "x / y" := (F32.div x y) : f32_scope.
Notation "- x" := (F32.neg x) : f32_scope.

(** [(float)d]: the [float] nearest to [d]; what is too large becomes an
    infinity, what is too small a subnormal number or a zero. *)
Definition float_of_double (d : double) : float :=
  match d with
  | S754_finite s m e => binary_round F32.prec F32.emax s m e
  | _ => d
  end.

Definition sizeof_float : Z := 4.

(** [GLuint] and [GLint] are 32 bits wide; a conversion between them keeps
    the bit pattern. *)
Definition to_GLuint (z : Z) : Z := z mod 2 ^ 32.

Definition to_GLint (z : Z) : Z :=
  let m := z mod 2 ^ 32 in if m <? 2 ^ 31 then m else m - 2 ^ 32.

(** [uint64_t]: the type of the timer values of GLFW. *)
Definition to_uint64 (z : Z) : Z := z mod 2 ^ 64.

(** ** The part of glm the program uses

    glm is a header library outside the repository; the definitions follow
    its [pi], [mat4(1.0f)], [dot], [inversesqrt], [normalize], [rotate]
    (ext/matrix_transform) and [value_ptr] at [T = float].  A [mat4] is four
    columns.  [rotate] calls [cos] and [sin] of the C library, which come as
    arguments here. *)

Module glm.

Record vec3 : Type := mkvec3 { v3x : float; v3y : float; v3z : float }.

Record vec4 : Type :=
  mkvec4 { v4x : float; v4y : float; v4z : float; v4w : float }.

Record mat4 : Type :=
  mkmat4 { col0 : vec4; col1 : vec4; col2 : vec4; col3 : vec4 }.

(** [pi<float>()] is [static_cast<float>(3.14159265358979323846...)]: the
    literal is the [double] 0x400921FB54442D18, and the cast rounds it to
    the [float] 0x40490FDB. *)
Definition pi : float := float_of_double (F64.lit 7074237752028440 (-51)).

(** [mat4(s)]: [s] on the diagonal. *)
Definition mat4_diag (s : float) : mat4 :=
  (mkmat4 (mkvec4 s 0 0 0) (mkvec4 0 s 0 0) (mkvec4 0 0 s 0) (mkvec4 0 0 0 s))%f32.

(** [k * v] and [v * k]. *)
Definition scale3 (k : float) (v : vec3) : vec3 :=
  (mkvec3 (k * v3x v) (k * v3y v) (k * v3z v))%f32.

Definition scaled3 (v : vec3) (k : float) : vec3 :=
  (mkvec3 (v3x v * k) (v3y v * k) (v3z v * k))%f32.

Definition scale4 (v : vec4) (k : float) : vec4 :=
  (mkvec4 (v4x v * k) (v4y v * k) (v4z v * k) (v4w v * k))%f32.

Definition add4 (a b : vec4) : vec4 :=
  (mkvec4 (v4x a + v4x b) (v4y a + v4y b) (v4z a + v4z b) (v4w a + v4w b))%f32.

Definition dot3 (a b : vec3) : float :=
  (v3x a * v3x b + v3y a * v3y b + v3z a * v3z b)%f32.

Definition inversesqrt (x : float) : float := (1 / F32.sqrt x)%f32.

Definition normalize (v : vec3) : vec3 := scaled3 v (inversesqrt (dot3 v v)).

(** [rotate(m, angle, v)]: [m] times the rotation by [angle] radians about
    the axis [v]. *)
Definition rotate (cos sin : float -> float) (m : mat4) (angle : float) (v : vec3) : mat4 :=
  let a := angle in
  let c := cos a in
  let s := sin a in
  let axis := normalize v in
  let temp := scale3 (1 - c)%f32 axis in
  let r00 := (c + v3x temp * v3x axis)%f32 in
  let r01 := (v3x temp * v3y axis + s * v3z axis)%f32 in
  let r02 := (v3x temp * v3z axis - s * v3y axis)%f32 in
  let r10 := (v3y temp * v3x axis - s * v3z axis)%f32 in
  let r11 := (c + v3y temp * v3y axis)%f32 in
  let r12 := (v3y temp * v3z axis + s * v3x axis)%f32 in
  let r20 := (v3z temp * v3x axis + s * v3y axis)%f32 in
  let r21 := (v3z temp * v3y axis - s * v3x axis)%f32 in
  let r22 := (c + v3z temp * v3z axis)%f32 in
  mkmat4
    (add4 (add4 (scale4 (col0 m) r00) (scale4 (col1 m) r01)) (scale4 (col2 m) r02))
    (add4 (add4 (scale4 (col0 m) r10) (scale4 (col1 m) r11)) (scale4 (col2 m) r12))
    (add4 (add4 (scale4 (col0 m) r20) (scale4 (col1 m) r21)) (scale4 (col2 m) r22))
    (col3 m).

Definition vec4_floats (v : vec4) : list float := [v4x v; v4y v; v4z v; v4w v].

(** [value_ptr(m)]: the sixteen floats as they lie in memory, column after
    column. *)
Definition value_ptr (m : mat4) : list float :=
  vec4_floats (col0 m) ++ vec4_floats (col1 m) ++
  vec4_floats (col2 m) ++ vec4_floats (col3 m).

End glm.

(** ** What the libraries are asked, and what they answer *)

Inductive ShaderKind : Type := GL_VERTEX_SHADER | GL_FRAGMENT_SHADER.

Inductive WindowHint : Type :=
| GLFW_CONTEXT_VERSION_MAJOR
| GLFW_CONTEXT_VERSION_MINOR
| GLFW_OPENGL_PROFILE.

Inductive HintValue : Type :=
| HintInt (n : Z)
| GLFW_OPENGL_CORE_PROFILE.

Inductive GLenum : Type :=
| GL_COLOR_BUFFER_BIT
| GL_COMPILE_STATUS
| GL_LINK_STATUS
| GL_ARRAY_BUFFER
| GL_STATIC_DRAW
| GL_FLOAT
| GL_TRIANGLES.

(** One entry of the call log: the library function and its arguments
    ([Call_ifstream] is the attempt to open a file). *)
Inductive Call : Type :=
| Call_ifstream (filePath : string)
| Call_glfwInit
| Call_glfwWindowHint (hint : WindowHint) (value : HintValue)
| Call_glfwCreateWindow (width height : Z) (title : string)
| Call_glfwTerminate
| Call_glfwMakeContextCurrent
| Call_glfwSetFramebufferSizeCallback
| Call_gladLoadGLLoader
| Call_glViewport (x y width height : Z)
| Call_glCreateShader (kind : ShaderKind)
| Call_glShaderSource (shader : Z) (count : Z) (source : string)
| Call_glCompileShader (shader : Z)
| Call_glGetShaderiv (shader : Z) (pname : GLenum)
| Call_glGetShaderInfoLog (shader : Z) (bufSize : Z)
| Call_glCreateProgram
| Call_glAttachShader (program shader : Z)
| Call_glLinkProgram (program : Z)
| Call_glGetProgramiv (program : Z) (pname : GLenum)
| Call_glGetProgramInfoLog (program : Z) (bufSize : Z)
| Call_glDetachShader (program shader : Z)
| Call_glDeleteShader (shader : Z)
| Call_glGenVertexArrays (n : Z)
| Call_glGenBuffers (n : Z)
| Call_glBindVertexArray (array : Z)
| Call_glBindBuffer (target : GLenum) (buffer : Z)
| Call_glBufferData (target : GLenum) (size : Z) (data : list float) (usage : GLenum)
| Call_glVertexAttribPointer (index size : Z) (type : GLenum) (normalized : bool)
    (stride pointer : Z)
| Call_glEnableVertexAttribArray (index : Z)
| Call_glfwWindowShouldClose
| Call_glClear (mask : GLenum)
| Call_glUseProgram (program : Z)
| Call_glfwGetTime
| Call_glGetUniformLocation (program : Z) (name : string)
| Call_glUniformMatrix4fv (location count : Z) (transpose : bool) (value : list float)
| Call_glDrawArrays (mode : GLenum) (first count : Z)
| Call_glfwSwapBuffers
| Call_glfwPollEvents
| Call_glDeleteVertexArrays (n array : Z)
| Call_glDeleteBuffers (n buffer : Z)
| Call_glDeleteProgram (program : Z).

(** What the windowing system hands to one [glfwPollEvents]. *)
Inductive WindowEvent : Type :=
| CloseRequest
| FramebufferResized (width height : Z).

(** A shader object of the GL: its kind, the source last given to it, and
    the outcome of the last compilation. *)
Record Shader : Type := mkShader {
  sh_kind : ShaderKind;
  sh_source : string;
  sh_compiled : bool;
  sh_log : string
}.

(** A program object of the GL. *)
Record Program : Type := mkProgram {
  pg_attached : list Z;
  pg_linked : bool;
  pg_log : string
}.

(** Everything outside the program.  [w_clock n] is the value of the
    platform's timer (a [uint64_t] count of ticks) at the moment of the
    [n]-th entry of the call log, [w_frequency] the number of ticks in a
    second; [w_cos] and [w_sin] are [cos] and [sin] of the C library for
    [float]; [w_glUniformMatrix4fv location] says whether the GL accepts one
    4x4 matrix for that location (it is the location of a [mat4] uniform of
    the program in use); [w_events n] is what the [n]-th [glfwPollEvents]
    delivers. *)
Record World : Type := mkWorld {
  w_clock : nat -> Z;
  w_frequency : Z;
  w_cos : float -> float;
  w_sin : float -> float;
  w_glfwInit : bool;
  w_glfwCreateWindow : bool;
  w_gladLoadGLLoader : bool;
  w_file : string -> option string;
  w_glCreateShader : ShaderKind -> Z;
  w_glCreateProgram : Z;
  w_glGenVertexArrays : Z;
  w_glGenBuffers : Z;
  w_compile : ShaderKind -> string -> bool * string;
  w_link : list Shader -> bool * string;
  w_glGetUniformLocation : string -> Z;
  w_glUniformMatrix4fv : Z -> bool;
  w_events : nat -> list WindowEvent
}.

(** What goes to [std::cerr] and [std::cout], one [<<] at a time. *)
Inductive Out : Type :=
| OutStr (s : string)
| OutFloat (x : float)
| OutEndl.

(** ** The state the program runs in *)

Record State : Type := mkState {
  trace : list Call;                  (* the call log, oldest first *)
  timer_base : Z;                     (* the timer value when GLFW was initialised *)
  glfw_up : bool;                     (* GLFW initialised and not terminated *)
  window_up : bool;                   (* the window exists *)
  should_close : bool;                (* the window's close flag *)
  polls : nat;                        (* [glfwPollEvents] calls so far *)
  shaders : gmap Z Shader;            (* shader objects by name *)
  deleted : gset Z;                   (* shaders given to [glDeleteShader] *)
  programs : gmap Z Program;          (* program objects by name *)
  uniforms : gmap Z (list float);     (* uniform location to value *)
  array_buffer : Z;                   (* the buffer bound to [GL_ARRAY_BUFFER] *)
  buffers : gmap Z (list float);      (* buffer object to contents *)
  cerr : list Out;                    (* what was written to [std::cerr] *)
  cout : list Out                     (* what was written to [std::cout] *)
}.

Definition initial : State :=
  mkState [] 0 false false false 0%nat ∅ ∅ ∅ ∅ 0 ∅ [] [].

Definition set_trace (x : list Call) (s : State) : State :=
  mkState x (timer_base s) (glfw_up s) (window_up s) (should_close s) (polls s)
    (shaders s) (deleted s) (programs s) (uniforms s)
    (array_buffer s) (buffers s) (cerr s) (cout s).

Definition set_timer_base (x : Z) (s : State) : State :=
  mkState (trace s) x (glfw_up s) (window_up s) (should_close s) (polls s)
    (shaders s) (deleted s) (programs s) (uniforms s)
    (array_buffer s) (buffers s) (cerr s) (cout s).

Definition set_glfw_up (x : bool) (s : State) : State :=
  mkState (trace s) (timer_base s) x (window_up s) (should_close s) (polls s)
    (shaders s) (deleted s) (programs s) (uniforms s)
    (array_buffer s) (buffers s) (cerr s) (cout s).

Definition set_window_up (x : bool) (s : State) : State :=
  mkState (trace s) (timer_base s) (glfw_up s) x (should_close s) (polls s)
    (shaders s) (deleted s) (programs s) (uniforms s)
    (array_buffer s) (buffers s) (cerr s) (cout s).

Definition set_should_close (x : bool) (s : State) : State :=
  mkState (trace s) (timer_base s) (glfw_up s) (window_up s) x (polls s)
    (shaders s) (deleted s) (programs s) (uniforms s)
    (array_buffer s) (buffers s) (cerr s) (cout s).

Definition set_polls (x : nat) (s : State) : State :=
  mkState (trace s) (timer_base s) (glfw_up s) (window_up s) (should_close s) x
    (shaders s) (deleted s) (programs s) (uniforms s)
    (array_buffer s) (buffers s) (cerr s) (cout s).

Definition set_shaders (x : gmap Z Shader) (s : State) : State :=
  mkState (trace s) (timer_base s) (glfw_up s) (window_up s) (should_close s) (polls s)
    x (deleted s) (programs s) (uniforms s)
    (array_buffer s) (buffers s) (cerr s) (cout s).

Definition set_deleted (x : gset Z) (s : State) : State :=
  mkState (trace s) (timer_base s) (glfw_up s) (window_up s) (should_close s) (polls s)
    (shaders s) x (programs s) (uniforms s)
    (array_buffer s) (buffers s) (cerr s) (cout s).

Definition set_programs (x : gmap Z Program) (s : State) : State :=
  mkState (trace s) (timer_base s) (glfw_up s) (window_up s) (should_close s) (polls s)
    (shaders s) (deleted s) x (uniforms s)
    (array_buffer s) (buffers s) (cerr s) (cout s).

Definition set_uniforms (x : gmap Z (list float)) (s : State) : State :=
  mkState (trace s) (timer_base s) (glfw_up s) (window_up s) (should_close s) (polls s)
    (shaders s) (deleted s) (programs s) x
    (array_buffer s) (buffers s) (cerr s) (cout s).

Definition set_array_buffer (x : Z) (s : State) : State :=
  mkState (trace s) (timer_base s) (glfw_up s) (window_up s) (should_close s) (polls s)
    (shaders s) (deleted s) (programs s) (uniforms s)
    x (buffers s) (cerr s) (cout s).

Definition set_buffers (x : gmap Z (list float)) (s : State) : State :=
  mkState (trace s) (timer_base s) (glfw_up s) (window_up s) (should_close s) (polls s)
    (shaders s) (deleted s) (programs s) (uniforms s)
    (array_buffer s) x (cerr s) (cout s).

Definition set_cerr (x : list Out) (s : State) : State :=
  mkState (trace s) (timer_base s) (glfw_up s) (window_up s) (should_close s) (polls s)
    (shaders s) (deleted s) (programs s) (uniforms s)
    (array_buffer s) (buffers s) x (cout s).

Definition set_cout (x : list Out) (s : State) : State :=
  mkState (trace s) (timer_base s) (glfw_up s) (window_up s) (should_close s) (polls s)
    (shaders s) (deleted s) (programs s) (uniforms s)
    (array_buffer s) (buffers s) (cerr s) x.

(** ** The monad: a computation reads and changes the [State] *)

Definition M (A : Type) : Type := State -> A * State.

Definition ret {A : Type} (a : A) : M A := fun s => (a, s).

Definition bind {A B : Type} (m : M A) (k : A -> M B) : M B :=
  fun s => let (a, s') := m s in k a s'.

Declare Scope gl_scope.
Delimit Scope gl_scope with gl.
Notation "x <- m ;; k" := (bind m (fun x => k))
  (at level 100, m at next level, right associativity) : gl_scope.
Notation "m ;; k" := (bind m (fun _ => k))
  (at level 100, right associativity) : gl_scope.
Local Open Scope gl_scope.

Definition modify (f : State -> State) : M unit := fun s => (tt, f s).

(** Enter a call in the log. *)
Definition log (c : Call) : M unit := modify (fun s => set_trace (trace s ++ [c]) s).

(** The platform's timer at the call about to be logged. *)
Definition now (w : World) : M Z := fun s => (w_clock w (length (trace s)), s).

Definition cerr_put (o : Out) : M unit := modify (fun s => set_cerr (cerr s ++ [o]) s).
Definition cout_put (o : Out) : M unit := modify (fun s => set_cout (cout s ++ [o]) s).

Definition newline : string := String (ascii_of_nat 10) EmptyString.

(** ** GLFW *)

(** [glfwInit] stores the value of the platform's timer as the offset of
    the timer of GLFW; the program never calls [glfwSetTime]. *)
Definition glfwInit (w : World) : M bool :=
  t <- now w ;;
  log Call_glfwInit ;;
  (if w_glfwInit w
   then modify (fun s => set_glfw_up true (set_timer_base t s))
   else ret tt) ;;
  ret (w_glfwInit w).

Definition glfwWindowHint (hint : WindowHint) (value : HintValue) : M unit :=
  log (Call_glfwWindowHint hint value).

(** [true]: a window was made (the pointer is not null). *)
Definition glfwCreateWindow (w : World) (width height : Z) (title : string) : M bool :=
  log (Call_glfwCreateWindow width height title) ;;
  (if w_glfwCreateWindow w
   then modify (fun s => set_should_close false (set_window_up true s))
   else ret tt) ;;
  ret (w_glfwCreateWindow w).

(** Destroys the windows that remain and shuts the library down. *)
Definition glfwTerminate : M unit :=
  log Call_glfwTerminate ;;
  modify (fun s => set_glfw_up false (set_window_up false s)).

Definition glfwMakeContextCurrent : M unit := log Call_glfwMakeContextCurrent.

Definition glfwSetFramebufferSizeCallback : M unit :=
  log Call_glfwSetFramebufferSizeCallback.

Definition gladLoadGLLoader (w : World) : M bool :=
  log Call_gladLoadGLLoader ;; ret (w_gladLoadGLLoader w).

Definition glfwWindowShouldClose : M bool :=
  log Call_glfwWindowShouldClose ;; fun s => (should_close s, s).

(** [(double) (value - offset) / frequency]: the ticks since the offset, a
    [uint64_t], converted to [double] and divided by the frequency. *)
Definition glfwGetTime (w : World) : M double :=
  t <- now w ;;
  log Call_glfwGetTime ;;
  fun s => (F64.div (F64.of_Z (to_uint64 (t - timer_base s))) (F64.of_Z (w_frequency w)), s).

Definition glfwSwapBuffers : M unit := log Call_glfwSwapBuffers.

(** ** OpenGL *)

Definition glViewport (x y width height : Z) : M unit :=
  log (Call_glViewport x y width height).

Definition glCreateShader (w : World) (kind : ShaderKind) : M Z :=
  log (Call_glCreateShader kind) ;;
  let name := w_glCreateShader w kind in
  modify (fun s =>
    set_shaders (<[name := mkShader kind EmptyString false EmptyString]> (shaders s)) s) ;;
  ret name.

Definition glShaderSource (shader : Z) (count : Z) (source : string) : M unit :=
  log (Call_glShaderSource shader count source) ;;
  modify (fun s =>
    set_shaders
      (alter (fun o => mkShader (sh_kind o) source (sh_compiled o) (sh_log o))
         shader (shaders s)) s).

Definition glCompileShader (w : World) (shader : Z) : M unit :=
  log (Call_glCompileShader shader) ;;
  modify (fun s =>
    set_shaders
      (alter (fun o =>
                let (ok, lg) := w_compile w (sh_kind o) (sh_source o) in
                mkShader (sh_kind o) (sh_source o) ok lg)
         shader (shaders s)) s).

(** [glGetShaderiv(shader, GL_COMPILE_STATUS, &success)], as the value left
    in [success]. *)
Definition glGetShaderiv (shader : Z) (pname : GLenum) : M bool :=
  log (Call_glGetShaderiv shader pname) ;;
  fun s => (match shaders s !! shader with
            | Some o => sh_compiled o
            | None => false
            end, s).

(** The first [n] characters of a string. *)
Fixpoint string_take (n : nat) (s : string) : string :=
  match n, s with
  | S n', String c s' => String c (string_take n' s')
  | _, _ => EmptyString
  end.

(** An information log copied into a buffer of [bufSize] characters: the
    terminating null takes one of them. *)
Definition copy_log (bufSize : Z) (lg : string) : string :=
  string_take (Z.to_nat (bufSize - 1)) lg.

(** [glGetShaderInfoLog(shader, bufSize, nullptr, infoLog)], as the string
    left in [infoLog]. *)
Definition glGetShaderInfoLog (shader : Z) (bufSize : Z) : M string :=
  log (Call_glGetShaderInfoLog shader bufSize) ;;
  fun s => (match shaders s !! shader with
            | Some o => copy_log bufSize (sh_log o)
            | None => EmptyString
            end, s).

Definition glCreateProgram (w : World) : M Z :=
  log Call_glCreateProgram ;;
  let name := w_glCreateProgram w in
  modify (fun s => set_programs (<[name := mkProgram [] false EmptyString]> (programs s)) s) ;;
  ret name.

Definition glAttachShader (program shader : Z) : M unit :=
  log (Call_glAttachShader program shader) ;;
  modify (fun s =>
    set_programs
      (alter (fun o => mkProgram (pg_attached o ++ [shader]) (pg_linked o) (pg_log o))
         program (programs s)) s).

(** The shader objects attached to a program, as the linker sees them. *)
Definition attached_shaders (s : State) (o : Program) : list Shader :=
  omap (fun name => shaders s !! name) (pg_attached o).

Definition glLinkProgram (w : World) (program : Z) : M unit :=
  log (Call_glLinkProgram program) ;;
  modify (fun s =>
    set_programs
      (alter (fun o =>
                let (ok, lg) := w_link w (attached_shaders s o) in
                mkProgram (pg_attached o) ok lg)
         program (programs s)) s).

Definition glGetProgramiv (program : Z) (pname : GLenum) : M bool :=
  log (Call_glGetProgramiv program pname) ;;
  fun s => (match programs s !! program with
            | Some o => pg_linked o
            | None => false
            end, s).

Definition glGetProgramInfoLog (program : Z) (bufSize : Z) : M string :=
  log (Call_glGetProgramInfoLog program bufSize) ;;
  fun s => (match programs s !! program with
            | Some o => copy_log bufSize (pg_log o)
            | None => EmptyString
            end, s).

Definition glDeleteShader (shader : Z) : M unit :=
  log (Call_glDeleteShader shader) ;;
  modify (fun s => set_deleted ({[shader]} ∪ deleted s) s).

Definition glGenVertexArrays (w : World) (n : Z) : M Z :=
  log (Call_glGenVertexArrays n) ;; ret (w_glGenVertexArrays w).

Definition glGenBuffers (w : World) (n : Z) : M Z :=
  log (Call_glGenBuffers n) ;; ret (w_glGenBuffers w).

Definition glBindVertexArray (array : Z) : M unit := log (Call_glBindVertexArray array).

Definition glBindBuffer (target : GLenum) (buffer : Z) : M unit :=
  log (Call_glBindBuffer target buffer) ;;
  modify (set_array_buffer buffer).

Definition glBufferData (target : GLenum) (size : Z) (data : list float) (usage : GLenum)
  : M unit :=
  log (Call_glBufferData target size data usage) ;;
  modify (fun s => set_buffers (<[array_buffer s := data]> (buffers s)) s).

Definition glVertexAttribPointer (index size : Z) (type : GLenum) (normalized : bool)
  (stride pointer : Z) : M unit :=
  log (Call_glVertexAttribPointer index size type normalized stride pointer).

Definition glEnableVertexAttribArray (index : Z) : M unit :=
  log (Call_glEnableVertexAttribArray index).

Definition glClear (mask : GLenum) : M unit := log (Call_glClear mask).

Definition glUseProgram (program : Z) : M unit := log (Call_glUseProgram program).

(** The location of the uniform, or [-1] when the program has no active
    uniform of that name. *)
Definition glGetUniformLocation (w : World) (program : Z) (name : string) : M Z :=
  log (Call_glGetUniformLocation program name) ;;
  ret (w_glGetUniformLocation w name).

(** The GL ignores an upload to location [-1]; one it does not accept (the
    location is not that of a [mat4] uniform of the program in use) is an
    error that leaves the uniforms as they are. *)
Definition glUniformMatrix4fv (w : World) (location count : Z) (transpose : bool)
  (value : list float) : M unit :=
  log (Call_glUniformMatrix4fv location count transpose value) ;;
  if location =? -1 then ret tt
  else if w_glUniformMatrix4fv w location
       then modify (fun s => set_uniforms (<[location := value]> (uniforms s)) s)
       else ret tt.

Definition glDrawArrays (mode : GLenum) (first count : Z) : M unit :=
  log (Call_glDrawArrays mode first count).

Definition glDeleteVertexArrays (n array : Z) : M unit :=
  log (Call_glDeleteVertexArrays n array).

Definition glDeleteBuffers (n buffer : Z) : M unit :=
  log (Call_glDeleteBuffers n buffer) ;;
  modify (fun s => set_buffers (delete buffer (buffers s)) s).

Definition glDeleteProgram (program : Z) : M unit :=
  log (Call_glDeleteProgram program) ;;
  modify (fun s => set_programs (delete program (programs s)) s).

(** ** The program *)

(** [loadShaderSource], lines 14-25. *)
Definition loadShaderSource (w : World) (filePath : string) : M string :=
  log (Call_ifstream filePath) ;;
  match w_file w filePath with
  | None =>
      cerr_put (OutStr "Failed to open shader file: ") ;;
      cerr_put (OutStr filePath) ;;
      cerr_put OutEndl ;;
      ret EmptyString
  | Some contents => ret contents
  end.

(** [framebuffer_size_callback], lines 28-31. *)
Definition framebuffer_size_callback (width height : Z) : M unit :=
  glViewport 0 0 width height.

(** What GLFW does with one event: a close request sets the close flag, a
    resize runs the callback that [main] registered. *)
Definition deliver (e : WindowEvent) : M unit :=
  match e with
  | CloseRequest => modify (set_should_close true)
  | FramebufferResized width height => framebuffer_size_callback width height
  end.

Fixpoint deliver_all (es : list WindowEvent) : M unit :=
  match es with
  | [] => ret tt
  | e :: es' => deliver e ;; deliver_all es'
  end.

Definition glfwPollEvents (w : World) : M unit :=
  log Call_glfwPollEvents ;;
  n <- (fun s => (polls s, set_polls (S (polls s)) s)) ;;
  deliver_all (w_events w n).

(** [s.c_str()] read as a null-terminated string: what comes before the
    first null character. *)
Fixpoint c_str (s : string) : string :=
  match s with
  | EmptyString => EmptyString
  | String c s' => if Ascii.eqb c zero then EmptyString else String c (c_str s')
  end.

(** [main], lines 36-66.  The result says whether [main] goes on; when it
    does not, [main] returns -1. *)
Definition startup (w : World) : M bool :=
  ok <- glfwInit w ;;
  if negb ok then
    cerr_put (OutStr ("Failed to initialize GLFW" ++ newline)) ;;
    ret false
  else
    glfwWindowHint GLFW_CONTEXT_VERSION_MAJOR (HintInt 3) ;;
    glfwWindowHint GLFW_CONTEXT_VERSION_MINOR (HintInt 3) ;;
    glfwWindowHint GLFW_OPENGL_PROFILE GLFW_OPENGL_CORE_PROFILE ;;
    window <- glfwCreateWindow w 800 600 "Rotating Triangle" ;;
    if negb window then
      cerr_put (OutStr ("Failed to create GLFW window" ++ newline)) ;;
      glfwTerminate ;;
      ret false
    else
      glfwMakeContextCurrent ;;
      glfwSetFramebufferSizeCallback ;;
      loaded <- gladLoadGLLoader w ;;
      if negb loaded then
        cerr_put (OutStr ("Failed to initialize GLAD" ++ newline)) ;;
        ret false
      else ret true.

(** [main], lines 68-117: the two sources, the two stages, the program.
    The result is [(shaderProgram, vertexShader, fragmentShader)]. *)
Definition build_pipeline (w : World) : M (Z * Z * Z) :=
  vertexShaderCode <- loadShaderSource w "shaders/vertex_shader.glsl" ;;
  fragmentShaderCode <- loadShaderSource w "shaders/fragment_shader.glsl" ;;
  let vertexShaderSource := c_str vertexShaderCode in
  let fragmentShaderSource := c_str fragmentShaderCode in
  vertexShader <- glCreateShader w GL_VERTEX_SHADER ;;
  glShaderSource vertexShader 1 vertexShaderSource ;;
  glCompileShader w vertexShader ;;
  success <- glGetShaderiv vertexShader GL_COMPILE_STATUS ;;
  (if negb success then
     infoLog <- glGetShaderInfoLog vertexShader 512 ;;
     cerr_put (OutStr "Vertex Shader Compilation Error: ") ;;
     cerr_put (OutStr infoLog) ;;
     cerr_put OutEndl
   else ret tt) ;;
  fragmentShader <- glCreateShader w GL_FRAGMENT_SHADER ;;
  glShaderSource fragmentShader 1 fragmentShaderSource ;;
  glCompileShader w fragmentShader ;;
  success <- glGetShaderiv fragmentShader GL_COMPILE_STATUS ;;
  (if negb success then
     infoLog <- glGetShaderInfoLog fragmentShader 512 ;;
     cerr_put (OutStr "Fragment Shader Compilation Error: ") ;;
     cerr_put (OutStr infoLog) ;;
     cerr_put OutEndl
   else ret tt) ;;
  shaderProgram <- glCreateProgram w ;;
  glAttachShader shaderProgram vertexShader ;;
  glAttachShader shaderProgram fragmentShader ;;
  glLinkProgram w shaderProgram ;;
  success <- glGetProgramiv shaderProgram GL_LINK_STATUS ;;
  (if negb success then
     infoLog <- glGetProgramInfoLog shaderProgram 512 ;;
     cerr_put (OutStr "Shader Program Linking Error: ") ;;
     cerr_put (OutStr infoLog) ;;
     cerr_put OutEndl
   else ret tt) ;;
  glDeleteShader vertexShader ;;
  glDeleteShader fragmentShader ;;
  ret (shaderProgram, vertexShader, fragmentShader).

(** [vertices], lines 120-123. *)
Definition vertices : list float :=
  let half := F32.lit 1 (-1) in
  [ 0; half; 0;
    - half; - half; 0;
    half; - half; 0 ]%f32.

(** [main], lines 126-137.  The result is [(VAO, VBO)]. *)
Definition upload_geometry (w : World) : M (Z * Z) :=
  VAO <- glGenVertexArrays w 1 ;;
  VBO <- glGenBuffers w 1 ;;
  glBindVertexArray VAO ;;
  glBindBuffer GL_ARRAY_BUFFER VBO ;;
  glBufferData GL_ARRAY_BUFFER (Z.of_nat (length vertices) * sizeof_float) vertices
    GL_STATIC_DRAW ;;
  glVertexAttribPointer 0 3 GL_FLOAT false (3 * sizeof_float) 0 ;;
  glEnableVertexAttribArray 0 ;;
  ret (VAO, VBO).

(** The body of the render loop, lines 143-167.  The result is the value
    it leaves in [rotationAngle], which [main] declares before the loop. *)
Definition frame (w : World) (shaderProgram VAO : Z) : M float :=
  glClear GL_COLOR_BUFFER_BIT ;;
  glUseProgram shaderProgram ;;
  let transform := glm.mat4_diag 1%f32 in
  t <- glfwGetTime w ;;
  let rotationAngle := float_of_double t in
  let rotationAngleDegrees := (rotationAngle * (F32.of_Z 180 / glm.pi))%f32 in
  let transform :=
    glm.rotate (w_cos w) (w_sin w) transform rotationAngle (glm.mkvec3 0 0 1)%f32 in
  cout_put (OutStr "Rotation Angle (radians): ") ;;
  cout_put (OutFloat rotationAngle) ;;
  cout_put OutEndl ;;
  cout_put (OutStr "Rotation Angle (degrees): ") ;;
  cout_put (OutFloat rotationAngleDegrees) ;;
  cout_put OutEndl ;;
  location <- glGetUniformLocation w shaderProgram "transform" ;;
  let transformLoc := to_GLuint location in
  glUniformMatrix4fv w (to_GLint transformLoc) 1 false (glm.value_ptr transform) ;;
  glBindVertexArray VAO ;;
  glDrawArrays GL_TRIANGLES 0 3 ;;
  glfwSwapBuffers ;;
  glfwPollEvents w ;;
  ret rotationAngle.

(** The render loop, lines 141-168: [fuel] bounds the number of times the
    condition is tested; [None] when the window is still open then. *)
Fixpoint render_loop (fuel : nat) (w : World) (shaderProgram VAO : Z) (s : State)
  : option State :=
  match fuel with
  | O => None
  | S fuel' =>
      let (closed, s1) := glfwWindowShouldClose s in
      if closed then Some s1
      else render_loop fuel' w shaderProgram VAO (snd (frame w shaderProgram VAO s1))
  end.

(** [main], lines 171-174. *)
Definition cleanup (shaderProgram VAO VBO : Z) : M unit :=
  glDeleteVertexArrays 1 VAO ;;
  glDeleteBuffers 1 VBO ;;
  glDeleteProgram shaderProgram ;;
  glfwTerminate.

(** [main] up to the render loop: the state in which the loop is entered
    and the names it uses, or the state in which [main] returns -1. *)
Definition setup (w : World) : M (option (Z * Z * Z)) :=
  go <- startup w ;;
  if negb go then ret None
  else
    pipeline <- build_pipeline w ;;
    geometry <- upload_geometry w ;;
    ret (Some (fst (fst pipeline), fst geometry, snd geometry)).

(** [main]: the value it returns and the state it leaves, or [None] when
    the loop is still running after [fuel] tests of its condition. *)
Definition main (w : World) (fuel : nat) : option (Z * State) :=
  match setup w initial with
  | (None, s) => Some (-1, s)
  | (Some (shaderProgram, VAO, VBO), s) =>
      match render_loop fuel w shaderProgram VAO s with
      | None => None
      | Some s' => Some (0, snd (cleanup shaderProgram VAO VBO s'))
      end
  end.

(** ** Vocabulary of the statements *)

Definition is_close (e : WindowEvent) : bool :=
  match e with
  | CloseRequest => true
  | FramebufferResized _ _ => false
  end.

(** Does this batch of events ask to close the window? *)
Definition close_requested (es : list WindowEvent) : bool := existsb is_close es.

(** The calls the resize callback makes for a batch of events. *)
Definition callback_calls (es : list WindowEvent) : list Call :=
  flat_map (fun e => match e with
                     | CloseRequest => []
                     | FramebufferResized width height => [Call_glViewport 0 0 width height]
                     end) es.

(** The matrix computed at lines 148 and 154 from the angle of the frame. *)
Definition transform_of (w : World) (rotationAngle : float) : glm.mat4 :=
  glm.rotate (w_cos w) (w_sin w) (glm.mat4_diag 1%f32) rotationAngle
    (glm.mkvec3 0 0 1)%f32.

(** The calls of one pass through the loop body, up to the event poll. *)
Definition frame_calls (shaderProgram VAO location : Z) (matrix : list float)
  : list Call :=
  [ Call_glClear GL_COLOR_BUFFER_BIT;
    Call_glUseProgram shaderProgram;
    Call_glfwGetTime;
    Call_glGetUniformLocation shaderProgram "transform";
    Call_glUniformMatrix4fv location 1 false matrix;
    Call_glBindVertexArray VAO;
    Call_glDrawArrays GL_TRIANGLES 0 3;
    Call_glfwSwapBuffers;
    Call_glfwPollEvents ].

(** The two lines the loop body prints. *)
Definition frame_report (rotationAngle : float) : list Out :=
  [ OutStr "Rotation Angle (radians): "; OutFloat rotationAngle; OutEndl;
    OutStr "Rotation Angle (degrees): ";
    OutFloat (rotationAngle * (F32.of_Z 180 / glm.pi))%f32;
    OutEndl ].

(** The states of the render loop. *)
Inductive LoopState : Type := Running | Closed.

Definition loop_state (s : State) : LoopState :=
  if should_close s then Closed else Running.

(** Did the three steps that can stop [main] all succeed? *)
Definition started (w : World) : bool :=
  w_glfwInit w && w_glfwCreateWindow w && w_gladLoadGLLoader w.

Definition startup_calls (w : World) : list Call :=
  Call_glfwInit ::
  (if w_glfwInit w then
     [ Call_glfwWindowHint GLFW_CONTEXT_VERSION_MAJOR (HintInt 3);
       Call_glfwWindowHint GLFW_CONTEXT_VERSION_MINOR (HintInt 3);
       Call_glfwWindowHint GLFW_OPENGL_PROFILE GLFW_OPENGL_CORE_PROFILE;
       Call_glfwCreateWindow 800 600 "Rotating Triangle" ] ++
     (if w_glfwCreateWindow w then
        [ Call_glfwMakeContextCurrent;
          Call_glfwSetFramebufferSizeCallback;
          Call_gladLoadGLLoader ]
      else [ Call_glfwTerminate ])
   else []).

Definition startup_diag (w : World) : list Out :=
  if negb (w_glfwInit w) then [ OutStr ("Failed to initialize GLFW" ++ newline) ]
  else if negb (w_glfwCreateWindow w) then
         [ OutStr ("Failed to create GLFW window" ++ newline) ]
  else if negb (w_gladLoadGLLoader w) then
         [ OutStr ("Failed to initialize GLAD" ++ newline) ]
  else [].

(** What [loadShaderSource] returns for a path, and what it writes. *)
Definition loaded (w : World) (filePath : string) : string :=
  match w_file w filePath with
  | Some contents => contents
  | None => EmptyString
  end.

Definition load_diag (w : World) (filePath : string) : list Out :=
  match w_file w filePath with
  | Some _ => []
  | None => [ OutStr "Failed to open shader file: "; OutStr filePath; OutEndl ]
  end.

Definition vertex_path : string := "shaders/vertex_shader.glsl".
Definition fragment_path : string := "shaders/fragment_shader.glsl".

(** The source text each stage is compiled from, and what the driver makes
    of it. *)
Definition stage_source (w : World) (filePath : string) : string :=
  c_str (loaded w filePath).

Definition vertex_result (w : World) : bool * string :=
  w_compile w GL_VERTEX_SHADER (stage_source w vertex_path).

Definition fragment_result (w : World) : bool * string :=
  w_compile w GL_FRAGMENT_SHADER (stage_source w fragment_path).

Definition vertex_stage (w : World) : Shader :=
  mkShader GL_VERTEX_SHADER (stage_source w vertex_path)
    (fst (vertex_result w)) (snd (vertex_result w)).

Definition fragment_stage (w : World) : Shader :=
  mkShader GL_FRAGMENT_SHADER (stage_source w fragment_path)
    (fst (fragment_result w)) (snd (fragment_result w)).

(** The shader objects the linker finds under the two attached names. *)
Definition link_input (w : World) : list Shader :=
  [ if decide (w_glCreateShader w GL_VERTEX_SHADER = w_glCreateShader w GL_FRAGMENT_SHADER)
    then fragment_stage w else vertex_stage w;
    fragment_stage w ].

Definition link_result (w : World) : bool * string := w_link w (link_input w).

(** The diagnostic written when a status query says [false]. *)
Definition status_diag (label : string) (r : bool * string) : list Out :=
  if fst r then []
  else [ OutStr label; OutStr (copy_log 512 (snd r)); OutEndl ].

Definition stage_calls (kind : ShaderKind) (shader : Z) (source : string) (ok : bool)
  : list Call :=
  [ Call_glCreateShader kind;
    Call_glShaderSource shader 1 source;
    Call_glCompileShader shader;
    Call_glGetShaderiv shader GL_COMPILE_STATUS ] ++
  (if ok then [] else [ Call_glGetShaderInfoLog shader 512 ]).

Definition link_calls (w : World) : list Call :=
  let vertexShader := w_glCreateShader w GL_VERTEX_SHADER in
  let fragmentShader := w_glCreateShader w GL_FRAGMENT_SHADER in
  let shaderProgram := w_glCreateProgram w in
  [ Call_glCreateProgram;
    Call_glAttachShader shaderProgram vertexShader;
    Call_glAttachShader shaderProgram fragmentShader;
    Call_glLinkProgram shaderProgram;
    Call_glGetProgramiv shaderProgram GL_LINK_STATUS ] ++
  (if fst (link_result w) then [] else [ Call_glGetProgramInfoLog shaderProgram 512 ]) ++
  [ Call_glDeleteShader vertexShader;
    Call_glDeleteShader fragmentShader ].

Definition pipeline_calls (w : World) : list Call :=
  [ Call_ifstream vertex_path; Call_ifstream fragment_path ] ++
  stage_calls GL_VERTEX_SHADER (w_glCreateShader w GL_VERTEX_SHADER)
    (stage_source w vertex_path) (fst (vertex_result w)) ++
  stage_calls GL_FRAGMENT_SHADER (w_glCreateShader w GL_FRAGMENT_SHADER)
    (stage_source w fragment_path) (fst (fragment_result w)) ++
  link_calls w.

Definition pipeline_diag (w : World) : list Out :=
  load_diag w vertex_path ++ load_diag w fragment_path ++
  status_diag "Vertex Shader Compilation Error: " (vertex_result w) ++
  status_diag "Fragment Shader Compilation Error: " (fragment_result w) ++
  status_diag "Shader Program Linking Error: " (link_result w).

Definition geometry_calls (w : World) : list Call :=
  [ Call_glGenVertexArrays 1;
    Call_glGenBuffers 1;
    Call_glBindVertexArray (w_glGenVertexArrays w);
    Call_glBindBuffer GL_ARRAY_BUFFER (w_glGenBuffers w);
    Call_glBufferData GL_ARRAY_BUFFER 36 vertices GL_STATIC_DRAW;
    Call_glVertexAttribPointer 0 3 GL_FLOAT false 12 0;
    Call_glEnableVertexAttribArray 0 ].

Definition cleanup_calls (w : World) : list Call :=
  [ Call_glDeleteVertexArrays 1 (w_glGenVertexArrays w);
    Call_glDeleteBuffers 1 (w_glGenBuffers w);
    Call_glDeleteProgram (w_glCreateProgram w);
    Call_glfwTerminate ].

(** The state in which [main] reaches the render loop (or returns -1). *)
Definition loop_entry (w : World) : State := snd (setup w initial).

(** The state after [n] more passes through the loop, each followed by the
    test of the loop condition, supposing the loop runs that long. *)
Fixpoint after_frames (w : World) (shaderProgram VAO : Z) (n : nat) (s : State) : State :=
  match n with
  | O => s
  | S k =>
      snd (glfwWindowShouldClose
             (snd (frame w shaderProgram VAO (after_frames w shaderProgram VAO k s))))
  end.

(** The state in which the body of the loop starts for the [n]-th time
    (counting from 0): the loop condition has just been tested. *)
Definition frame_start (w : World) (n : nat) : State :=
  after_frames w (w_glCreateProgram w) (w_glGenVertexArrays w) n
    (snd (glfwWindowShouldClose (loop_entry w))).

(** The value the [n]-th pass leaves in [rotationAngle]. *)
Definition angle_of_frame (w : World) (n : nat) : float :=
  fst (frame w (w_glCreateProgram w) (w_glGenVertexArrays w) (frame_start w n)).

(** Is the close request delivered within the first [fuel - 1] polls, so
    that one of the first [fuel] tests of the loop condition sees it? *)
Definition closes_by (w : World) (fuel : nat) : bool :=
  existsb (fun n => close_requested (w_events w n)) (seq 0 (fuel - 1)).

(** The first poll that delivers a close request is the [k]-th. *)
Definition first_close (w : World) (k : nat) : Prop :=
  close_requested (w_events w k) = true /\
  forall j, (j < k)%nat -> close_requested (w_events w j) = false.

(** Where in the call log the [n]-th pass asks for the time: two calls
    ([glClear], [glUseProgram]) into the pass. *)
Definition reading_tick (w : World) (n : nat) : nat :=
  (length (trace (frame_start w n)) + 2)%nat.

(** A count of timer ticks in seconds, as [glfwGetTime] computes them. *)
Definition seconds (w : World) (ticks : Z) : double :=
  F64.div (F64.of_Z (to_uint64 ticks)) (F64.of_Z (w_frequency w)).

(** The ticks from the call of [glfwInit], the first entry of the log, to
    the moment the [n]-th pass asks for the time. *)
Definition ticks_since_init (w : World) (n : nat) : Z :=
  w_clock w (reading_tick w n) - w_clock w 0.

Definition since_init (w : World) (n : nat) : double :=
  seconds w (ticks_since_init w n).


(** Readings of the call log. *)
Definition uploads_of (t : list Call) : list (GLenum * Z * list float * GLenum) :=
  flat_map (fun c => match c with
                     | Call_glBufferData target size data usage =>
                         [(target, size, data, usage)]
                     | _ => []
                     end) t.

Definition layouts_of (t : list Call) : list (Z * Z * GLenum * bool * Z * Z) :=
  flat_map (fun c => match c with
                     | Call_glVertexAttribPointer index size type normalized stride pointer =>
                         [(index, size, type, normalized, stride, pointer)]
                     | _ => []
                     end) t.

Definition draws_of (t : list Call) : list (GLenum * Z * Z) :=
  flat_map (fun c => match c with
                     | Call_glDrawArrays mode first count => [(mode, first, count)]
                     | _ => []
                     end) t.

Definition matrices_of (t : list Call) : list (Z * Z * bool * list float) :=
  flat_map (fun c => match c with
                     | Call_glUniformMatrix4fv location count transpose value =>
                         [(location, count, transpose, value)]
                     | _ => []
                     end) t.

Definition uses_of (t : list Call) : list Z :=
  flat_map (fun c => match c with
                     | Call_glUseProgram program => [program]
                     | _ => []
                     end) t.

Definition is_detach (c : Call) : bool :=
  match c with
  | Call_glDetachShader _ _ => true
  | _ => false
  end.

Definition is_terminate (c : Call) : bool :=
  match c with
  | Call_glfwTerminate => true
  | _ => false
  end.

(** ** Some worlds *)

(** [cos] and [sin] for [float] as a C library that rounds correctly has
    them, at the arguments the worlds below reach (0, 4.5 and 35); the
    table does not go further. *)
Definition cosf (x : float) : float :=
  if F32.eqb x 0%f32 then 1%f32
  else if F32.eqb x (F32.lit 9 (-1)) then S754_finite true 14146267 (-26)
  else if F32.eqb x (F32.of_Z 35) then S754_finite true 15161439 (-24)
  else S754_nan.

Definition sinf (x : float) : float :=
  if F32.eqb x 0%f32 then x
  else if F32.eqb x (F32.lit 9 (-1)) then S754_finite true 16400234 (-24)
  else if F32.eqb x (F32.of_Z 35) then S754_finite true 14367426 (-25)
  else S754_nan.

(** The timer counts seconds and each library call takes one; both files
    are there; the driver accepts everything; the user closes the window
    during the first pass. *)
Definition w_demo : World :=
  mkWorld (fun n => Z.of_nat n) 1 cosf sinf true true true
    (fun _ => Some "void main(){}")
    (fun kind => match kind with GL_VERTEX_SHADER => 1 | GL_FRAGMENT_SHADER => 2 end)
    3 1 1
    (fun _ _ => (true, EmptyString))
    (fun _ => (true, EmptyString))
    (fun _ => 0)
    (fun _ => true)
    (fun n => match n with O => [CloseRequest] | S _ => [] end).

Definition with_startup (init window glad : bool) (w : World) : World :=
  mkWorld (w_clock w) (w_frequency w) (w_cos w) (w_sin w) init window glad (w_file w)
    (w_glCreateShader w)
    (w_glCreateProgram w) (w_glGenVertexArrays w) (w_glGenBuffers w)
    (w_compile w) (w_link w) (w_glGetUniformLocation w)
    (w_glUniformMatrix4fv w) (w_events w).

Definition with_compile (compile : ShaderKind -> string -> bool * string) (w : World)
  : World :=
  mkWorld (w_clock w) (w_frequency w) (w_cos w) (w_sin w)
    (w_glfwInit w) (w_glfwCreateWindow w) (w_gladLoadGLLoader w)
    (w_file w) (w_glCreateShader w) (w_glCreateProgram w) (w_glGenVertexArrays w)
    (w_glGenBuffers w) compile (w_link w) (w_glGetUniformLocation w)
    (w_glUniformMatrix4fv w) (w_events w).

Definition with_link (link : list Shader -> bool * string) (w : World) : World :=
  mkWorld (w_clock w) (w_frequency w) (w_cos w) (w_sin w)
    (w_glfwInit w) (w_glfwCreateWindow w) (w_gladLoadGLLoader w)
    (w_file w) (w_glCreateShader w) (w_glCreateProgram w) (w_glGenVertexArrays w)
    (w_glGenBuffers w) (w_compile w) link (w_glGetUniformLocation w)
    (w_glUniformMatrix4fv w) (w_events w).

Definition with_uniform (location : string -> Z) (w : World) : World :=
  mkWorld (w_clock w) (w_frequency w) (w_cos w) (w_sin w)
    (w_glfwInit w) (w_glfwCreateWindow w) (w_gladLoadGLLoader w)
    (w_file w) (w_glCreateShader w) (w_glCreateProgram w) (w_glGenVertexArrays w)
    (w_glGenBuffers w) (w_compile w) (w_link w) location (w_glUniformMatrix4fv w)
    (w_events w).

(** The window cannot be created. *)
Definition w_no_window : World := with_startup true false true w_demo.

(** The GL functions cannot be loaded. *)
Definition w_no_glad : World := with_startup true true false w_demo.

(** The driver rejects the vertex shader. *)
Definition w_bad_vertex : World :=
  with_compile (fun kind _ =>
                  match kind with
                  | GL_VERTEX_SHADER => (false, "0:1(1): error: syntax error")
                  | GL_FRAGMENT_SHADER => (true, EmptyString)
                  end) w_demo.

(** The linker rejects the program. *)
Definition w_link_fails : World :=
  with_link (fun _ => (false, "error: linking failed")) w_demo.

(** The program has no uniform called [transform]. *)
Definition w_no_uniform : World := with_uniform (fun _ => -1) w_demo.

Definition with_timer (clock : nat -> Z) (frequency : Z) (w : World) : World :=
  mkWorld clock frequency (w_cos w) (w_sin w)
    (w_glfwInit w) (w_glfwCreateWindow w) (w_gladLoadGLLoader w)
    (w_file w) (w_glCreateShader w) (w_glCreateProgram w) (w_glGenVertexArrays w)
    (w_glGenBuffers w) (w_compile w) (w_link w) (w_glGetUniformLocation w)
    (w_glUniformMatrix4fv w) (w_events w).

Definition with_events (events : nat -> list WindowEvent) (w : World) : World :=
  mkWorld (w_clock w) (w_frequency w) (w_cos w) (w_sin w)
    (w_glfwInit w) (w_glfwCreateWindow w) (w_gladLoadGLLoader w)
    (w_file w) (w_glCreateShader w) (w_glCreateProgram w) (w_glGenVertexArrays w)
    (w_glGenBuffers w) (w_compile w) (w_link w) (w_glGetUniformLocation w)
    (w_glUniformMatrix4fv w) events.

(** The timer counts 70 ticks in a second and each library call takes 9:
    the first pass asks for the time 35 calls after [glfwInit], four and a
    half seconds. *)
Definition w_rounding : World := with_timer (fun n => 9 * Z.of_nat n) 70 w_demo.

(** The timer has not moved since [glfwInit] when the first pass asks. *)
Definition w_still : World := with_timer (fun _ => 0) 1 w_demo.


(** The driver rejects the vertex shader and says nothing about it: the GL
    allows an information log to be empty. *)
Definition w_silent_driver : World :=
  with_compile (fun kind _ =>
                  match kind with
                  | GL_VERTEX_SHADER => (false, EmptyString)
                  | GL_FRAGMENT_SHADER => (true, EmptyString)
                  end) w_demo.

(** ** Vocabulary of the further properties *)

(** The calls of the [n]-th pass through the loop and of the test of the
    loop condition that follows it. *)
Definition pass_calls (w : World) (n : nat) : list Call :=
  frame_calls (w_glCreateProgram w) (w_glGenVertexArrays w)
    (to_GLint (to_GLuint (w_glGetUniformLocation w "transform")))
    (glm.value_ptr (transform_of w (angle_of_frame w n))) ++
  callback_calls (w_events w n) ++
  [ Call_glfwWindowShouldClose ].

(** More readings of the call log: the files opened, the viewports set,
    and the calls that make or release something. *)
Definition opens_of (t : list Call) : list string :=
  flat_map (fun c => match c with
                     | Call_ifstream filePath => [filePath]
                     | _ => []
                     end) t.

Definition viewports_of (t : list Call) : list (Z * Z * Z * Z) :=
  flat_map (fun c => match c with
                     | Call_glViewport x y width height => [(x, y, width, height)]
                     | _ => []
                     end) t.

Definition is_lifecycle (c : Call) : bool :=
  match c with
  | Call_glfwInit | Call_glfwCreateWindow _ _ _ | Call_glfwTerminate
  | Call_glCreateShader _ | Call_glDeleteShader _
  | Call_glCreateProgram | Call_glDeleteProgram _
  | Call_glGenVertexArrays _ | Call_glDeleteVertexArrays _ _
  | Call_glGenBuffers _ | Call_glDeleteBuffers _ _ => true
  | _ => false
  end.

Definition lifecycle_of (t : list Call) : list Call :=
  flat_map (fun c => if is_lifecycle c then [c] else []) t.

(** The framebuffer sizes a batch of events announces. *)
Definition resizes_of (es : list WindowEvent) : list (Z * Z) :=
  flat_map (fun e => match e with
                     | CloseRequest => []
                     | FramebufferResized width height => [(width, height)]
                     end) es.

(** Does the string hold a null character? *)
Fixpoint has_null (s : string) : bool :=
  match s with
  | EmptyString => false
  | String c s' => Ascii.eqb c zero || has_null s'
  end.

(** The file each kind of shader is read from. *)
Definition path_of (kind : ShaderKind) : string :=
  match kind with
  | GL_VERTEX_SHADER => vertex_path
  | GL_FRAGMENT_SHADER => fragment_path
  end.

(** ** More worlds *)

Definition with_files (file : string -> option string) (w : World) : World :=
  mkWorld (w_clock w) (w_frequency w) (w_cos w) (w_sin w)
    (w_glfwInit w) (w_glfwCreateWindow w) (w_gladLoadGLLoader w)
    file (w_glCreateShader w) (w_glCreateProgram w) (w_glGenVertexArrays w)
    (w_glGenBuffers w) (w_compile w) (w_link w) (w_glGetUniformLocation w)
    (w_glUniformMatrix4fv w) (w_events w).

(** GLFW cannot be initialised. *)
Definition w_no_glfw : World := with_startup false true true w_demo.

(** The vertex shader file is missing. *)
Definition w_no_vertex_file : World :=
  with_files (fun filePath =>
                if String.eqb filePath vertex_path then None else Some "void main(){}")
    w_demo.

(** Both shader files hold a null character in the middle. *)
Definition w_null_in_file : World :=
  with_files (fun _ => Some (String.append "void main(){}" (String zero "garbage"))) w_demo.

(** The window is resized during the first pass; during the second it is
    minimised, asked to close, and resized once more. *)
Definition w_resizing : World :=
  with_events (fun n => match n with
                        | 0%nat => [ FramebufferResized 1024 768 ]
                        | 1%nat => [ FramebufferResized 0 0; CloseRequest;
                                     FramebufferResized 640 480 ]
                        | _ => []
                        end) w_demo.

(** ** Running the monad by hand *)

Ltac run :=
  cbv [bind ret modify log now cerr_put cout_put
       glfwInit glfwWindowHint glfwCreateWindow glfwTerminate glfwMakeContextCurrent
       glfwSetFramebufferSizeCallback gladLoadGLLoader glfwWindowShouldClose glfwGetTime
       glfwSwapBuffers glViewport glCreateShader glShaderSource glCompileShader
       glGetShaderiv glGetShaderInfoLog glCreateProgram glAttachShader glLinkProgram
       glGetProgramiv glGetProgramInfoLog glDeleteShader glGenVertexArrays glGenBuffers
       glBindVertexArray glBindBuffer glBufferData glVertexAttribPointer
       glEnableVertexAttribArray glClear glUseProgram glGetUniformLocation
       glUniformMatrix4fv glDrawArrays glDeleteVertexArrays glDeleteBuffers glDeleteProgram
       framebuffer_size_callback float_of_double
       set_trace set_timer_base set_glfw_up set_window_up set_should_close set_polls
       set_shaders set_deleted set_programs set_uniforms set_array_buffer set_buffers
       set_cerr set_cout
       trace timer_base glfw_up window_up should_close polls shaders deleted programs
       uniforms array_buffer buffers cerr cout fst snd negb].

Ltac flatten_apps := rewrite <- ?app_assoc; cbn [app].

Lemma deliver_all_eq (es : list WindowEvent) (s : State) :
  deliver_all es s =
  (tt, set_should_close (should_close s || close_requested es)
         (set_trace (trace s ++ callback_calls es) s)).
Proof.
  revert s; induction es as [|e es IH]; intros s.
  - destruct s; cbn [deliver_all close_requested callback_calls existsb flat_map].
    run. now rewrite app_nil_r, orb_false_r.
  - cbn [deliver_all]. unfold bind at 1.
    destruct e as [|width height]; cbn [deliver]; run; rewrite IH; destruct s; run;
      cbn [close_requested callback_calls existsb flat_map is_close orb app].
    + now rewrite orb_true_r.
    + now rewrite <- app_assoc.
Qed.

Lemma glfwPollEvents_eq (w : World) (s : State) :
  glfwPollEvents w s =
  (tt, set_should_close (should_close s || close_requested (w_events w (polls s)))
         (set_polls (S (polls s))
            (set_trace (trace s ++ Call_glfwPollEvents :: callback_calls (w_events w (polls s)))
               s))).
Proof.
  unfold glfwPollEvents. run. rewrite deliver_all_eq. destruct s; run.
  now rewrite <- app_assoc.
Qed.

(** The angle of the frame that starts in state [s]: the timer when
    [glfwGetTime] is called, two calls into the frame, less the offset, in
    seconds, as a [float]. *)
Lemma frame_eq (w : World) (shaderProgram VAO : Z) (s : State) :
  let rotationAngle :=
    float_of_double (seconds w (w_clock w (length (trace s) + 2) - timer_base s)) in
  let matrix := glm.value_ptr (transform_of w rotationAngle) in
  let location := to_GLint (to_GLuint (w_glGetUniformLocation w "transform")) in
  let es := w_events w (polls s) in
  frame w shaderProgram VAO s =
  (rotationAngle,
   mkState (trace s ++ frame_calls shaderProgram VAO location matrix ++ callback_calls es)
     (timer_base s) (glfw_up s) (window_up s)
     (should_close s || close_requested es) (S (polls s))
     (shaders s) (deleted s) (programs s)
     (if (location =? -1) || negb (w_glUniformMatrix4fv w location) then uniforms s
      else <[location := matrix]> (uniforms s))
     (array_buffer s) (buffers s) (cerr s) (cout s ++ frame_report rotationAngle)).
Proof.
  intros rotationAngle matrix location es. subst rotationAngle matrix location es.
  unfold frame. destruct s. run.
  rewrite !length_app. cbn [length]. rewrite <- !Nat.add_assoc. cbn [Nat.add].
  set (loc := to_GLint _).
  destruct (loc =? -1); [|destruct (w_glUniformMatrix4fv w loc)];
    run; rewrite glfwPollEvents_eq; run;
    unfold frame_calls, frame_report, transform_of, seconds;
    flatten_apps; reflexivity.
Qed.

Lemma loadShaderSource_eq (w : World) (filePath : string) (s : State) :
  loadShaderSource w filePath s =
  (loaded w filePath,
   set_cerr (cerr s ++ load_diag w filePath)
     (set_trace (trace s ++ [Call_ifstream filePath]) s)).
Proof.
  unfold loadShaderSource, loaded, load_diag. destruct s.
  destruct (w_file w filePath); run; flatten_apps; rewrite ?app_nil_r; reflexivity.
Qed.

Lemma shader_after_compile (w : World) (kind : ShaderKind) (src : string) (name : Z)
  (m : gmap Z Shader) :
  alter (fun o => let (ok, lg) := w_compile w (sh_kind o) (sh_source o) in
                  mkShader (sh_kind o) (sh_source o) ok lg) name
    (alter (fun o => mkShader (sh_kind o) src (sh_compiled o) (sh_log o)) name
       (<[name := mkShader kind EmptyString false EmptyString]> m)) =
  <[name := mkShader kind src (fst (w_compile w kind src)) (snd (w_compile w kind src))]> m.
Proof.
  rewrite !alter_insert_eq. cbn [sh_kind sh_source sh_compiled sh_log].
  now destruct (w_compile w kind src).
Qed.

Lemma link_input_eq (w : World) (m : gmap Z Shader) :
  omap (fun name =>
          (<[w_glCreateShader w GL_FRAGMENT_SHADER := fragment_stage w]>
             (<[w_glCreateShader w GL_VERTEX_SHADER := vertex_stage w]> m)) !! name)
    [w_glCreateShader w GL_VERTEX_SHADER; w_glCreateShader w GL_FRAGMENT_SHADER] =
  link_input w.
Proof.
  unfold link_input. cbn. rewrite lookup_insert_eq.
  destruct (decide (_ = _)) as [->|Hne].
  - now rewrite lookup_insert_eq.
  - rewrite lookup_insert_ne by congruence. now rewrite lookup_insert_eq.
Qed.

Lemma build_pipeline_eq (w : World) (s : State) :
  let vertexShader := w_glCreateShader w GL_VERTEX_SHADER in
  let fragmentShader := w_glCreateShader w GL_FRAGMENT_SHADER in
  let shaderProgram := w_glCreateProgram w in
  build_pipeline w s =
  ((shaderProgram, vertexShader, fragmentShader),
   mkState (trace s ++ pipeline_calls w)
     (timer_base s) (glfw_up s) (window_up s) (should_close s) (polls s)
     (<[fragmentShader := fragment_stage w]> (<[vertexShader := vertex_stage w]> (shaders s)))
     ({[fragmentShader]} ∪ ({[vertexShader]} ∪ deleted s))
     (<[shaderProgram := mkProgram [vertexShader; fragmentShader]
                           (fst (link_result w)) (snd (link_result w))]> (programs s))
     (uniforms s) (array_buffer s) (buffers s)
     (cerr s ++ pipeline_diag w) (cout s)).
Proof.
  intros vs fs p; subst vs fs p.
  cbv [build_pipeline bind]. rewrite loadShaderSource_eq. cbv beta iota.
  rewrite loadShaderSource_eq. cbv beta iota.
  destruct s. run.
  rewrite !shader_after_compile, !lookup_insert_eq.
  cbn [sh_compiled sh_log].
  fold vertex_path fragment_path.
  fold (stage_source w vertex_path) (stage_source w fragment_path).
  fold (vertex_result w) (fragment_result w).
  fold (vertex_stage w) (fragment_stage w).
  destruct (vertex_result w).1 eqn:Hv; run;
    rewrite ?shader_after_compile, ?lookup_insert_eq;
    cbn [sh_compiled sh_log];
    fold (stage_source w fragment_path); fold (fragment_result w); fold (fragment_stage w);
    (destruct (fragment_result w).1 eqn:Hf; run;
     rewrite ?lookup_insert_eq, ?alter_insert_eq;
     cbn [pg_attached pg_linked pg_log sh_compiled sh_log app]);
    unfold attached_shaders; cbn [pg_attached shaders]; rewrite link_input_eq;
    change (w_link w (link_input w)) with (link_result w);
    destruct (link_result w) as [okl lgl] eqn:Hl; rewrite lookup_insert_eq;
    cbn [pg_linked fst snd]; destruct okl; run;
    rewrite ?lookup_insert_eq; cbn [pg_log];
    unfold pipeline_calls, pipeline_diag, stage_calls, link_calls, status_diag;
    rewrite ?Hv, ?Hf, ?Hl; cbn [fst snd];
    flatten_apps; rewrite ?app_nil_r; reflexivity.
Qed.

Lemma startup_eq (w : World) (s : State) :
  startup w s =
  (started w,
   mkState (trace s ++ startup_calls w)
     (if w_glfwInit w then w_clock w (length (trace s)) else timer_base s)
     (if w_glfwInit w then w_glfwCreateWindow w else glfw_up s)
     (if w_glfwInit w then w_glfwCreateWindow w else window_up s)
     (if w_glfwInit w && w_glfwCreateWindow w then false else should_close s)
     (polls s) (shaders s) (deleted s) (programs s) (uniforms s)
     (array_buffer s) (buffers s) (cerr s ++ startup_diag w) (cout s)).
Proof.
  unfold startup, started, startup_calls, startup_diag. destruct s. run.
  destruct (w_glfwInit w); run; [destruct (w_glfwCreateWindow w); run;
    [destruct (w_gladLoadGLLoader w); run|]|];
    cbn [andb negb]; flatten_apps; rewrite ?app_nil_r; reflexivity.
Qed.

Lemma upload_geometry_eq (w : World) (s : State) :
  upload_geometry w s =
  ((w_glGenVertexArrays w, w_glGenBuffers w),
   mkState (trace s ++ geometry_calls w)
     (timer_base s) (glfw_up s) (window_up s) (should_close s) (polls s)
     (shaders s) (deleted s) (programs s) (uniforms s)
     (w_glGenBuffers w) (<[w_glGenBuffers w := vertices]> (buffers s))
     (cerr s) (cout s)).
Proof.
  unfold upload_geometry, geometry_calls. destruct s. run.
  flatten_apps. reflexivity.
Qed.

Lemma cleanup_eq (shaderProgram VAO VBO : Z) (s : State) :
  cleanup shaderProgram VAO VBO s =
  (tt,
   mkState (trace s ++ [ Call_glDeleteVertexArrays 1 VAO; Call_glDeleteBuffers 1 VBO;
                         Call_glDeleteProgram shaderProgram; Call_glfwTerminate ])
     (timer_base s) false false (should_close s) (polls s)
     (shaders s) (deleted s) (delete shaderProgram (programs s)) (uniforms s)
     (array_buffer s) (delete VBO (buffers s)) (cerr s) (cout s)).
Proof.
  unfold cleanup. destruct s. run. flatten_apps. reflexivity.
Qed.

Lemma setup_eq (w : World) (s : State) :
  setup w s =
  if started w then
    (Some (w_glCreateProgram w, w_glGenVertexArrays w, w_glGenBuffers w),
     snd (upload_geometry w (snd (build_pipeline w (snd (startup w s))))))
  else (None, snd (startup w s)).
Proof.
  cbv [setup bind].
  destruct (startup w s) as [go s1] eqn:E1.
  rewrite startup_eq in E1. injection E1 as <- _.
  destruct (started w); cbn [negb snd]; [|reflexivity].
  destruct (build_pipeline w s1) as [r s2] eqn:E2.
  rewrite build_pipeline_eq in E2. injection E2 as <- _. cbn [fst snd].
  destruct (upload_geometry w s2) as [g s3] eqn:E3.
  rewrite upload_geometry_eq in E3. injection E3 as <- _.
  reflexivity.
Qed.

(** The state at the loop, field by field, when nothing stopped [main]. *)
Lemma loop_entry_eq (w : World) :
  started w = true ->
  loop_entry w =
  mkState (startup_calls w ++ pipeline_calls w ++ geometry_calls w)
    (w_clock w 0) true true false 0%nat
    (<[w_glCreateShader w GL_FRAGMENT_SHADER := fragment_stage w]>
       (<[w_glCreateShader w GL_VERTEX_SHADER := vertex_stage w]> ∅))
    ({[w_glCreateShader w GL_FRAGMENT_SHADER]} ∪
       ({[w_glCreateShader w GL_VERTEX_SHADER]} ∪ ∅))
    (<[w_glCreateProgram w :=
         mkProgram [w_glCreateShader w GL_VERTEX_SHADER; w_glCreateShader w GL_FRAGMENT_SHADER]
           (fst (link_result w)) (snd (link_result w))]> ∅)
    ∅ (w_glGenBuffers w) (<[w_glGenBuffers w := vertices]> ∅)
    (pipeline_diag w) [].
Proof.
  intros Hs. unfold loop_entry. rewrite setup_eq, Hs.
  rewrite startup_eq, build_pipeline_eq, upload_geometry_eq.
  unfold started in Hs. apply andb_prop in Hs as [Hs Hg]. apply andb_prop in Hs as [Hi Hw].
  unfold startup_diag. rewrite Hi, Hw, Hg. run. cbn [andb app length].
  rewrite <- app_assoc. reflexivity.
Qed.

Lemma main_eq (w : World) (fuel : nat) :
  main w fuel =
  if started w then
    match render_loop fuel w (w_glCreateProgram w) (w_glGenVertexArrays w) (loop_entry w) with
    | None => None
    | Some s' =>
        Some (0, snd (cleanup (w_glCreateProgram w) (w_glGenVertexArrays w)
                        (w_glGenBuffers w) s'))
    end
  else Some (-1, snd (startup w initial)).
Proof.
  unfold main, loop_entry. rewrite setup_eq. destruct (started w); reflexivity.
Qed.

(** ** The render loop *)

Lemma glfwWindowShouldClose_eq (s : State) :
  glfwWindowShouldClose s =
  (should_close s, set_trace (trace s ++ [Call_glfwWindowShouldClose]) s).
Proof. destruct s; reflexivity. Qed.

Lemma render_loop_S (fuel : nat) (w : World) (shaderProgram VAO : Z) (s : State) :
  render_loop (S fuel) w shaderProgram VAO s =
  match loop_state s with
  | Closed => Some (snd (glfwWindowShouldClose s))
  | Running =>
      render_loop fuel w shaderProgram VAO
        (snd (frame w shaderProgram VAO (snd (glfwWindowShouldClose s))))
  end.
Proof.
  cbn [render_loop]. rewrite glfwWindowShouldClose_eq. unfold loop_state.
  cbn [snd]. destruct (should_close s); reflexivity.
Qed.

Lemma tested_fields (s : State) :
  let s1 := snd (glfwWindowShouldClose s) in
  should_close s1 = should_close s /\ polls s1 = polls s /\
  timer_base s1 = timer_base s /\
  trace s1 = trace s ++ [Call_glfwWindowShouldClose].
Proof. destruct s; cbn; auto. Qed.

Lemma frame_fields (w : World) (shaderProgram VAO : Z) (s : State) :
  let s1 := snd (frame w shaderProgram VAO s) in
  should_close s1 = should_close s || close_requested (w_events w (polls s)) /\
  polls s1 = S (polls s) /\
  timer_base s1 = timer_base s.
Proof. rewrite frame_eq. cbn. auto. Qed.

Lemma after_frames_shift (w : World) (shaderProgram VAO : Z) (n : nat) (s : State) :
  after_frames w shaderProgram VAO (S n) s =
  after_frames w shaderProgram VAO n
    (snd (glfwWindowShouldClose (snd (frame w shaderProgram VAO s)))).
Proof.
  induction n as [|n IH]; [reflexivity|].
  change (after_frames w shaderProgram VAO (S (S n)) s)
    with (snd (glfwWindowShouldClose
                 (snd (frame w shaderProgram VAO (after_frames w shaderProgram VAO (S n) s))))).
  now rewrite IH.
Qed.

(** With the close request first delivered by the [k]-th poll from [s] on,
    the loop makes [k + 1] passes and leaves at the test after the last. *)
Lemma render_loop_run (w : World) (shaderProgram VAO : Z) (k : nat) :
  forall (fuel : nat) (s : State),
    should_close s = false ->
    (forall j, (j < k)%nat -> close_requested (w_events w (polls s + j)) = false) ->
    close_requested (w_events w (polls s + k)) = true ->
    (k + 2 <= fuel)%nat ->
    render_loop fuel w shaderProgram VAO s =
    Some (after_frames w shaderProgram VAO (S k) (snd (glfwWindowShouldClose s))).
Proof.
  induction k as [|k IH]; intros fuel s Hopen Hbefore Hat Hfuel.
  - destruct fuel as [|[|fuel]]; try lia.
    rewrite render_loop_S. unfold loop_state. rewrite Hopen.
    rewrite render_loop_S. unfold loop_state.
    destruct (frame_fields w shaderProgram VAO (snd (glfwWindowShouldClose s)))
      as (Hc & _ & _).
    destruct (tested_fields s) as (Hc0 & Hp0 & _).
    rewrite Hc, Hc0, Hp0, Hopen. rewrite Nat.add_0_r in Hat. rewrite Hat.
    reflexivity.
  - destruct fuel as [|fuel]; try lia.
    rewrite render_loop_S. unfold loop_state. rewrite Hopen.
    destruct (frame_fields w shaderProgram VAO (snd (glfwWindowShouldClose s)))
      as (Hc & Hp & _).
    destruct (tested_fields s) as (Hc0 & Hp0 & _).
    rewrite Hc0, Hp0 in *.
    rewrite (IH fuel).
    + now rewrite <- after_frames_shift.
    + rewrite Hc, Hopen. cbn [orb]. specialize (Hbefore 0%nat).
      rewrite Nat.add_0_r in Hbefore. apply Hbefore. lia.
    + intros j Hj. rewrite Hp. specialize (Hbefore (S j)).
      rewrite Nat.add_succ_r in Hbefore. apply Hbefore. lia.
    + rewrite Hp. now rewrite Nat.add_succ_r in Hat.
    + lia.
Qed.

Lemma existsb_seq_S (f : nat -> bool) (start len : nat) :
  existsb f (seq (S start) len) = existsb (fun n => f (S n)) (seq start len).
Proof.
  revert start; induction len as [|len IH]; intros start; [reflexivity|].
  cbn [seq existsb]. now rewrite IH.
Qed.

Lemma existsb_pointwise {A : Type} (f g : A -> bool) (l : list A) :
  (forall x, f x = g x) -> existsb f l = existsb g l.
Proof.
  intros Hfg; induction l as [|x l IH]; [reflexivity|].
  cbn [existsb]. now rewrite Hfg, IH.
Qed.

(** The loop returns within [fuel] tests exactly when a close request comes
    early enough. *)
Lemma render_loop_returns (w : World) (shaderProgram VAO : Z) (fuel : nat) :
  forall s : State,
    should_close s = false ->
    is_Some (render_loop fuel w shaderProgram VAO s) <->
    existsb (fun n => close_requested (w_events w (polls s + n))) (seq 0 (fuel - 1)) = true.
Proof.
  induction fuel as [|fuel IH]; intros s Hopen.
  - cbn. split; [intros [x Hx]; discriminate | discriminate].
  - rewrite render_loop_S. unfold loop_state. rewrite Hopen.
    destruct (frame_fields w shaderProgram VAO (snd (glfwWindowShouldClose s)))
      as (Hc & Hp & _).
    destruct (tested_fields s) as (Hc0 & Hp0 & _).
    rewrite Hc0, Hp0, Hopen in *. cbn [orb] in Hc.
    replace (S fuel - 1)%nat with fuel by lia.
    destruct fuel as [|fuel].
    + cbn. split; [intros [x Hx]; discriminate | discriminate].
    + destruct (close_requested (w_events w (polls s))) eqn:Hreq.
      * rewrite render_loop_S. unfold loop_state. rewrite Hc.
        cbn [seq existsb]. rewrite Nat.add_0_r, Hreq. cbn [orb].
        split; [reflexivity | intros _; eexists; reflexivity].
      * rewrite (IH _ Hc). rewrite Hp.
        replace (S fuel - 1)%nat with fuel by lia.
        cbn [seq existsb]. rewrite Nat.add_0_r, Hreq. cbn [orb].
        rewrite existsb_seq_S.
        rewrite (existsb_pointwise
                   (fun n => close_requested (w_events w (polls s + S n)))
                   (fun n => close_requested (w_events w (S (polls s) + n))));
          [reflexivity|].
        intros n. now rewrite Nat.add_succ_r.
Qed.

(** ** The passes of a run *)

Lemma frame_start_S (w : World) (n : nat) :
  frame_start w (S n) =
  snd (glfwWindowShouldClose
         (snd (frame w (w_glCreateProgram w) (w_glGenVertexArrays w) (frame_start w n)))).
Proof. reflexivity. Qed.

Lemma frame_start_0 (w : World) :
  frame_start w 0 = snd (glfwWindowShouldClose (loop_entry w)).
Proof. reflexivity. Qed.

(** What one pass and the test after it add to the log. *)
Lemma frame_start_trace_S (w : World) (n : nat) :
  trace (frame_start w (S n)) =
  trace (frame_start w n) ++
  frame_calls (w_glCreateProgram w) (w_glGenVertexArrays w)
    (to_GLint (to_GLuint (w_glGetUniformLocation w "transform")))
    (glm.value_ptr (transform_of w (angle_of_frame w n))) ++
  callback_calls (w_events w (polls (frame_start w n))) ++
  [Call_glfwWindowShouldClose].
Proof.
  rewrite frame_start_S. unfold angle_of_frame.
  rewrite glfwWindowShouldClose_eq, frame_eq. cbn [fst snd trace set_trace].
  now rewrite <- !app_assoc.
Qed.

Lemma angle_of_frame_eq (w : World) (n : nat) :
  angle_of_frame w n =
  float_of_double (seconds w (w_clock w (reading_tick w n) - timer_base (frame_start w n))).
Proof. unfold angle_of_frame. rewrite frame_eq. reflexivity. Qed.

(** What no pass changes. *)
Lemma frame_start_kept (w : World) (n : nat) :
  let s0 := loop_entry w in
  let s := frame_start w n in
  timer_base s = timer_base s0 /\ glfw_up s = glfw_up s0 /\ window_up s = window_up s0 /\
  polls s = (polls s0 + n)%nat /\
  shaders s = shaders s0 /\ deleted s = deleted s0 /\ programs s = programs s0 /\
  array_buffer s = array_buffer s0 /\ buffers s = buffers s0 /\ cerr s = cerr s0.
Proof.
  induction n as [|n IH].
  - rewrite frame_start_0, glfwWindowShouldClose_eq. cbn.
    rewrite Nat.add_0_r. repeat split.
  - cbv zeta in IH |- *.
    destruct IH as (H1 & H2 & H3 & H4 & H5 & H6 & H7 & H8 & H9 & H10).
    rewrite frame_start_S, glfwWindowShouldClose_eq, frame_eq. cbn.
    rewrite H1, H2, H3, H4, H5, H6, H7, H8, H9, H10, Nat.add_succ_r.
    repeat split.
Qed.

Lemma frame_start_cout_S (w : World) (n : nat) :
  cout (frame_start w (S n)) =
  cout (frame_start w n) ++ frame_report (angle_of_frame w n).
Proof.
  rewrite frame_start_S. unfold angle_of_frame.
  rewrite glfwWindowShouldClose_eq, frame_eq. reflexivity.
Qed.

Lemma frame_start_uniforms_S (w : World) (n : nat) :
  let location := to_GLint (to_GLuint (w_glGetUniformLocation w "transform")) in
  uniforms (frame_start w (S n)) =
  if (location =? -1) || negb (w_glUniformMatrix4fv w location) then uniforms (frame_start w n)
  else <[location := glm.value_ptr (transform_of w (angle_of_frame w n))]>
         (uniforms (frame_start w n)).
Proof.
  rewrite frame_start_S. unfold angle_of_frame.
  rewrite glfwWindowShouldClose_eq, frame_eq. reflexivity.
Qed.

Lemma frame_start_should_close_S (w : World) (n : nat) :
  should_close (frame_start w (S n)) =
  should_close (frame_start w n) ||
  close_requested (w_events w (polls (frame_start w n))).
Proof.
  rewrite frame_start_S, glfwWindowShouldClose_eq, frame_eq. reflexivity.
Qed.


(** ** Readings of the log, piece by piece *)

Lemma callback_calls_readings (es : list WindowEvent) :
  uploads_of (callback_calls es) = [] /\ layouts_of (callback_calls es) = [] /\
  draws_of (callback_calls es) = [] /\ matrices_of (callback_calls es) = [] /\
  existsb is_detach (callback_calls es) = false.
Proof.
  induction es as [|[|width height] es IH]; cbn; auto.
Qed.


Lemma setup_calls_readings (w : World) :
  let t := startup_calls w ++ pipeline_calls w ++ geometry_calls w in
  uploads_of t = [(GL_ARRAY_BUFFER, 36, vertices, GL_STATIC_DRAW)] /\
  layouts_of t = [(0, 3, GL_FLOAT, false, 12, 0)] /\
  draws_of t = [] /\ matrices_of t = [] /\ existsb is_detach t = false.
Proof.
  unfold startup_calls, pipeline_calls, stage_calls, link_calls, geometry_calls.
  destruct (w_glfwInit w), (w_glfwCreateWindow w), (fst (vertex_result w)),
    (fst (fragment_result w)), (fst (link_result w)); repeat split.
Qed.

(** ** Whole runs *)

Lemma loop_entry_open (w : World) :
  started w = true ->
  should_close (loop_entry w) = false /\ polls (loop_entry w) = 0%nat.
Proof. intros Hs. rewrite loop_entry_eq by assumption. split; reflexivity. Qed.

Lemma frame_start_polls (w : World) (n : nat) :
  started w = true -> polls (frame_start w n) = n.
Proof.
  intros Hs. destruct (frame_start_kept w n) as (_ & _ & _ & -> & _).
  destruct (loop_entry_open w Hs) as [_ ->]. reflexivity.
Qed.

Lemma frame_start_timer_base (w : World) (n : nat) :
  started w = true -> timer_base (frame_start w n) = w_clock w 0.
Proof.
  intros Hs. destruct (frame_start_kept w n) as (-> & _).
  rewrite loop_entry_eq by assumption. reflexivity.
Qed.

(** The close flag at the start of a pass: has any earlier poll delivered a
    close request? *)
Lemma frame_start_should_close (w : World) (n : nat) :
  started w = true ->
  should_close (frame_start w n) =
  existsb (fun j => close_requested (w_events w j)) (seq 0 n).
Proof.
  intros Hs. induction n as [|n IH].
  - rewrite frame_start_0, glfwWindowShouldClose_eq. cbn.
    now destruct (loop_entry_open w Hs).
  - rewrite frame_start_should_close_S, IH, frame_start_polls by assumption.
    rewrite seq_S, existsb_app. cbn. now rewrite orb_false_r.
Qed.

Lemma angle_since_init (w : World) (n : nat) :
  started w = true -> angle_of_frame w n = float_of_double (since_init w n).
Proof.
  intros Hs. rewrite angle_of_frame_eq, frame_start_timer_base by assumption.
  reflexivity.
Qed.

Lemma frame_start_trace_0 (w : World) :
  started w = true ->
  trace (frame_start w 0) =
  (startup_calls w ++ pipeline_calls w ++ geometry_calls w) ++ [Call_glfwWindowShouldClose].
Proof.
  intros Hs. rewrite frame_start_0, glfwWindowShouldClose_eq, loop_entry_eq by assumption.
  reflexivity.
Qed.

Lemma frame_start_readings (w : World) (n : nat) :
  started w = true ->
  let t := trace (frame_start w n) in
  uploads_of t = [(GL_ARRAY_BUFFER, 36, vertices, GL_STATIC_DRAW)] /\
  layouts_of t = [(0, 3, GL_FLOAT, false, 12, 0)] /\
  draws_of t = repeat (GL_TRIANGLES, 0, 3) n /\
  existsb is_detach t = false.
Proof.
  intros Hs. induction n as [|n IH]; cbv zeta in *.
  - rewrite frame_start_trace_0 by assumption.
    destruct (setup_calls_readings w) as (Hu & Hl & Hd & _ & Hx).
    unfold uploads_of, layouts_of, draws_of in *.
    rewrite !(flat_map_app _ (startup_calls w ++ pipeline_calls w ++ geometry_calls w)).
    rewrite existsb_app, Hu, Hl, Hd, Hx. repeat split.
  - destruct IH as (Hu & Hl & Hd & Hx).
    rewrite frame_start_trace_S.
    destruct (callback_calls_readings (w_events w (polls (frame_start w n))))
      as (Hu' & Hl' & Hd' & _ & Hx').
    unfold uploads_of, layouts_of, draws_of in *.
    rewrite !(flat_map_app _ (trace (frame_start w n))), !(flat_map_app _ (frame_calls _ _ _ _)),
      !(flat_map_app _ (callback_calls _)).
    rewrite !existsb_app, Hu, Hl, Hd, Hx, Hu', Hl', Hd', Hx'.
    repeat split.
    change (S n) with (1 + n)%nat. rewrite Nat.add_comm, repeat_app. reflexivity.
Qed.


(** A run in which the [k]-th poll is the first to deliver a close request:
    [k + 1] passes, then the clean-up, then [return 0]. *)
Lemma main_run (w : World) (k fuel : nat) :
  started w = true -> first_close w k -> (k + 2 <= fuel)%nat ->
  main w fuel =
  Some (0, snd (cleanup (w_glCreateProgram w) (w_glGenVertexArrays w) (w_glGenBuffers w)
                  (frame_start w (S k)))).
Proof.
  intros Hs [Hat Hbefore] Hfuel. rewrite main_eq, Hs.
  destruct (loop_entry_open w Hs) as [Hopen Hpolls].
  rewrite (render_loop_run w _ _ k fuel (loop_entry w)); try assumption.
  - reflexivity.
  - intros j Hj. rewrite Hpolls. now apply Hbefore.
  - now rewrite Hpolls.
Qed.

Lemma main_exit_code (w : World) (fuel : nat) :
  option_map fst (main w fuel) =
  if started w then (if closes_by w fuel then Some 0 else None) else Some (-1).
Proof.
  rewrite main_eq. destruct (started w) eqn:Hs; [|reflexivity].
  destruct (loop_entry_open w Hs) as [Hopen Hpolls].
  pose proof (render_loop_returns w (w_glCreateProgram w) (w_glGenVertexArrays w) fuel
                (loop_entry w) Hopen) as Hret.
  rewrite Hpolls in Hret. cbn [Nat.add] in Hret. fold (closes_by w fuel) in Hret.
  destruct (render_loop fuel w _ _ (loop_entry w)) as [s'|].
  - destruct Hret as [Hret _]. rewrite Hret; [reflexivity | eexists; reflexivity].
  - destruct (closes_by w fuel); [|reflexivity].
    destruct Hret as [_ Hret]. destruct (Hret eq_refl) as [x Hx]. discriminate.
Qed.

Lemma closes_by_iff (w : World) (fuel : nat) :
  closes_by w fuel = true <->
  exists n, (n + 2 <= fuel)%nat /\ close_requested (w_events w n) = true.
Proof.
  unfold closes_by. rewrite existsb_exists. split.
  - intros (n & Hin & Hreq). apply in_seq in Hin. exists n. split; [lia | assumption].
  - intros (n & Hn & Hreq). exists n. split; [apply in_seq; lia | assumption].
Qed.

(** ** Information logs *)

Lemma string_take_length (n : nat) (s : string) :
  String.length (string_take n s) = Nat.min n (String.length s).
Proof.
  revert s; induction n as [|n IH]; intros [|c s]; cbn; try reflexivity.
  now rewrite IH.
Qed.

Lemma string_take_prefix (n : nat) (s : string) :
  exists rest, s = String.append (string_take n s) rest.
Proof.
  revert s; induction n as [|n IH]; intros [|c s]; cbn.
  - now exists EmptyString.
  - now exists (String c s).
  - now exists EmptyString.
  - destruct (IH s) as [rest Hrest]. exists rest.
    change (String c s = String c (String.append (string_take n s) rest)).
    now f_equal.
Qed.

Lemma copy_log_bound (lg : string) :
  (String.length (copy_log 512 lg) <= 511)%nat /\
  (exists rest, lg = String.append (copy_log 512 lg) rest) /\
  ((String.length lg <= 511)%nat -> copy_log 512 lg = lg).
Proof.
  unfold copy_log. change (Z.to_nat (512 - 1)) with 511%nat.
  split; [|split].
  - rewrite string_take_length. lia.
  - apply string_take_prefix.
  - generalize 511%nat. intros n. revert lg.
    induction n as [|n IH]; intros [|c lg] Hlen; cbn in *; try reflexivity; try lia.
    rewrite IH by lia. reflexivity.
Qed.

(** ** [GLuint] and back *)

Lemma GLint_roundtrip (z : Z) :
  - 2 ^ 31 <= z < 2 ^ 31 -> to_GLint (to_GLuint z) = z.
Proof.
  intros Hz. unfold to_GLint, to_GLuint. rewrite Z.mod_mod by lia.
  destruct (Z.ltb_spec z 0) as [Hneg|Hpos].
  - replace (z mod 2 ^ 32) with (z + 2 ^ 32).
    + destruct (Z.ltb_spec (z + 2 ^ 32) (2 ^ 31)); lia.
    + apply (Z.mod_unique _ _ (-1)); lia.
  - rewrite Z.mod_small by lia.
    destruct (Z.ltb_spec z (2 ^ 31)); lia.
Qed.

Lemma cleanup_trace (w : World) (s : State) :
  trace (snd (cleanup (w_glCreateProgram w) (w_glGenVertexArrays w) (w_glGenBuffers w) s)) =
  trace s ++ cleanup_calls w.
Proof. rewrite cleanup_eq. reflexivity. Qed.

(** ** Rounding

    What the operations of [spec_float] return, as far as the statements
    below need it: the result of a rounding is a number of the format, no
    more than one binade above the exact value, and its sign is the sign of
    the exact value. *)

Lemma digits2_pos_size (m : positive) : digits2_pos m = Pos.size m.
Proof. induction m as [m IH|m IH|]; cbn; now rewrite ?IH. Qed.

Lemma digits2_log2 (m : positive) : Zpos (digits2_pos m) = Z.log2 (Zpos m) + 1.
Proof.
  rewrite digits2_pos_size. destruct m as [m|m|]; cbn [Z.log2 Pos.size]; lia.
Qed.

Lemma Zdigits2_log2 (x : Z) : 0 < x -> Zdigits2 x = Z.log2 x + 1.
Proof. destruct x as [|m|m]; try lia. intros _. apply digits2_log2. Qed.

Lemma shr_1_m (mrs : shr_record) :
  0 <= shr_m mrs -> shr_m (shr_1 mrs) = shr_m mrs / 2.
Proof.
  destruct mrs as [m r s]. cbn [shr_m]. intros Hm.
  rewrite <- Z.div2_div.
  destruct m as [|[p|p|]|p]; try lia; reflexivity.
Qed.

Lemma iter_shr_1_m (n : positive) :
  forall mrs : shr_record,
    0 <= shr_m mrs ->
    shr_m (SpecFloat.iter_pos shr_1 n mrs) = shr_m mrs / 2 ^ Zpos n.
Proof.
  induction n as [n IH|n IH|]; intros mrs Hm; cbn [SpecFloat.iter_pos].
  - assert (H1 : 0 <= shr_m (shr_1 mrs)).
    { rewrite shr_1_m by assumption. apply Z.div_pos; lia. }
    assert (H2 : 0 <= shr_m (SpecFloat.iter_pos shr_1 n (shr_1 mrs))).
    { rewrite IH by assumption. apply Z.div_pos; lia. }
    rewrite IH, IH, shr_1_m by assumption.
    rewrite !Z.div_div by lia. f_equal.
    rewrite Pos2Z.inj_xI. rewrite <- !Z.pow_add_r by lia.
    replace (1 + Zpos n + Zpos n) with (2 * Zpos n + 1) by lia.
    change 2 with (2 ^ 1) at 1. rewrite <- Z.pow_add_r by lia. f_equal. lia.
  - assert (H2 : 0 <= shr_m (SpecFloat.iter_pos shr_1 n mrs)).
    { rewrite IH by assumption. apply Z.div_pos; lia. }
    rewrite IH, IH by assumption.
    rewrite !Z.div_div by lia. f_equal.
    rewrite Pos2Z.inj_xO. rewrite <- !Z.pow_add_r by lia. f_equal. lia.
  - apply shr_1_m. assumption.
Qed.

(** The mantissa [shr] leaves, and the exponent. *)
Lemma shr_m_e (mrs : shr_record) (e n : Z) :
  0 <= shr_m mrs ->
  shr_m (fst (shr mrs e n)) = shr_m mrs / 2 ^ Z.max 0 n /\
  snd (shr mrs e n) = e + Z.max 0 n.
Proof.
  intros Hm. destruct n as [|p|p]; cbn [shr fst snd].
  - rewrite Z.max_l by lia. cbn. rewrite Z.div_1_r. lia.
  - rewrite Z.max_r by lia. split; [now apply iter_shr_1_m | reflexivity].
  - rewrite Z.max_l by lia. cbn. rewrite Z.div_1_r. lia.
Qed.

Lemma shr_record_of_loc_m (m : Z) (l : location) : shr_m (shr_record_of_loc m l) = m.
Proof. destruct l as [|[| |]]; reflexivity. Qed.

Lemma round_nearest_even_cases (m : Z) (l : location) :
  round_nearest_even m l = m \/ round_nearest_even m l = m + 1.
Proof.
  destruct l as [|[| |]]; cbn; auto. destruct (Z.even m); auto.
Qed.

Lemma log2_div_pow2 (a n : Z) :
  0 <= n -> 0 < a / 2 ^ n -> Z.log2 (a / 2 ^ n) = Z.log2 a - n.
Proof.
  intros Hn Hpos.
  assert (Ha : 0 < a).
  { destruct (Z.ltb_spec 0 a) as [|Hle]; [assumption|].
    assert (a / 2 ^ n <= 0) by (apply Z.div_le_upper_bound; lia). lia. }
  rewrite <- Z.shiftr_div_pow2 by assumption.
  rewrite Z.log2_shiftr by assumption.
  assert (n <= Z.log2 a); [|lia].
  destruct (Z.leb_spec n (Z.log2 a)) as [|Hlt]; [assumption|].
  assert (a < 2 ^ n) by (apply Z.log2_lt_pow2; lia).
  rewrite Z.div_small in Hpos by lia. lia.
Qed.

Lemma log2_succ_bounds (a : Z) : 0 <= a -> Z.log2 a <= Z.log2 (a + 1) <= Z.log2 a + 1.
Proof.
  intros Ha. split.
  - apply Z.log2_le_mono. lia.
  - pose proof (Z.log2_succ_le a). unfold Z.succ in *. lia.
Qed.

Lemma iter_xO_pow2 (m d : positive) : Zpos (Pos.iter xO m d) = Zpos m * 2 ^ Zpos d.
Proof.
  induction d as [|d IH] using Pos.peano_ind.
  - cbn. lia.
  - rewrite Pos.iter_succ, Pos2Z.inj_xO, IH, Pos2Z.inj_succ, Z.pow_succ_r by lia. lia.
Qed.

(** [shl_align] keeps the value: the mantissa is multiplied by the power of
    2 the exponent loses. *)
Lemma shl_align_spec (m : positive) (e e' : Z) :
  let r := shl_align m e e' in
  snd r = Z.min e e' /\ Zpos (fst r) = Zpos m * 2 ^ (e - snd r).
Proof.
  unfold shl_align. destruct (e' - e) as [|d|d] eqn:Hd; cbn [fst snd].
  - rewrite Z.min_l by lia. rewrite Z.sub_diag. cbn. lia.
  - rewrite Z.min_l by lia. rewrite Z.sub_diag. cbn. lia.
  - rewrite Z.min_r by lia. split; [reflexivity|].
    rewrite iter_xO_pow2. f_equal. f_equal. lia.
Qed.

Lemma bounded_spec (prec emax : Z) (m : positive) (e : Z) :
  bounded prec emax m e = true ->
  fexp prec emax (Zpos (digits2_pos m) + e) = e /\ e <= emax - prec.
Proof.
  unfold bounded, canonical_mantissa. intros H. apply andb_prop in H as [Hc He].
  apply Z.eqb_eq in Hc. apply Z.leb_le in He. split; [exact Hc | lia].
Qed.

Lemma below_is_number (prec emax k : Z) (x : spec_float) :
  below prec emax k x = true -> is_number prec emax x = true.
Proof.
  destruct x as [s|s| |s m e]; cbn; try easy. intros H. now apply andb_prop in H.
Qed.

Lemma below_mono (prec emax k k' : Z) (x : spec_float) :
  k <= k' -> below prec emax k x = true -> below prec emax k' x = true.
Proof.
  intros Hk. destruct x as [s|s| |s m e]; cbn [below]; try easy.
  intros H. apply andb_prop in H as [Hb Hd]. rewrite Hb. cbn [andb].
  apply Z.leb_le in Hd. apply Z.leb_le. lia.
Qed.

Section Format.

Variables prec emax : Z.
Hypothesis Hprec : 0 < prec.
Hypothesis Hemax : prec < emax.


(** What [binary_round_aux] returns when the mantissa is long enough for
    its exponent and the number is below [2 ^ (emax - 1)]: a zero, or a
    number with a canonical mantissa that is at most one binade up. *)
Lemma binary_round_aux_number (s : bool) (m : positive) (e : Z) (l : location) :
  let D := Zpos (digits2_pos m) + e in
  e <= fexp prec emax D ->
  D <= emax - 1 ->
  match binary_round_aux prec emax s (Zpos m) e l with
  | S754_zero s' => s' = s /\ D < emin prec emax + prec
  | S754_finite s' m' e' =>
      s' = s /\ bounded prec emax m' e' = true /\
      Zpos (digits2_pos m') + e' <= Z.max (D + 1) (emin prec emax + 1) /\
      (emin prec emax + prec <= D -> D <= Zpos (digits2_pos m') + e')
  | _ => False
  end.
Proof.
  intros D Hlong Hbig. unfold binary_round_aux, shr_fexp.
  change (Zdigits2 (Zpos m) + e) with D.
  set (fe := fexp prec emax D) in *.
  assert (Hfe : fe = Z.max (D - prec) (3 - emax - prec)) by reflexivity.
  destruct (shr (shr_record_of_loc (Zpos m) l) e (fe - e)) as [mrs1 e1] eqn:E1.
  pose proof (shr_m_e (shr_record_of_loc (Zpos m) l) e (fe - e)) as H1.
  rewrite shr_record_of_loc_m, E1 in H1. cbn [fst snd] in H1.
  specialize (H1 ltac:(lia)). destruct H1 as [Hm1 He1].
  rewrite Z.max_r in Hm1, He1 by lia.
  assert (He1' : e1 = fe) by lia. clear He1. subst e1.
  set (m1 := shr_m mrs1) in *.
  assert (Hm1pos : 0 <= m1).
  { rewrite Hm1. apply Z.div_pos; [lia | apply Z.pow_pos_nonneg; lia]. }
  assert (Hd : Zpos (digits2_pos m) = Z.log2 (Zpos m) + 1) by apply digits2_log2.
  assert (Hd1 : 0 < m1 -> Z.log2 m1 + 1 = D - fe).
  { intros Hpos. rewrite Hm1 in Hpos |- *.
    rewrite log2_div_pow2; [unfold D; lia | lia | exact Hpos]. }
  set (m2 := round_nearest_even m1 (loc_of_shr_record mrs1)).
  assert (Hm2 : m2 = m1 \/ m2 = m1 + 1) by apply round_nearest_even_cases.
  assert (Hnormal : 3 - emax - prec <= D - prec -> 0 < m1).
  { intros Hn. rewrite Hm1. apply Z.div_str_pos. split; [apply Z.pow_pos_nonneg; lia|].
    apply Z.le_trans with (2 ^ Z.log2 (Zpos m)).
    - apply Z.pow_le_mono_r; lia.
    - apply Z.log2_spec. lia. }
  assert (Hd2 : 0 < m2 ->
                Z.log2 m2 + 1 <= prec + 1 /\
                Z.log2 m2 + 1 + fe <= Z.max (D + 1) (3 - emax - prec + 1) /\
                (3 - emax - prec <= D - prec -> prec <= Z.log2 m2 + 1)).
  { intros Hpos. destruct (Z.eqb_spec m1 0) as [Hz|Hnz].
    - assert (H21 : m2 = 1) by lia. rewrite H21. change (Z.log2 1) with 0.
      split; [lia|]. split; [lia|].
      intros Hn. specialize (Hnormal Hn). lia.
    - assert (Hp1 : 0 < m1) by lia. specialize (Hd1 Hp1).
      pose proof (log2_succ_bounds m1 Hm1pos) as Hs.
      destruct Hm2 as [->| ->]; lia. }
  destruct (shr (shr_record_of_loc m2 loc_Exact) fe
              (fexp prec emax (Zdigits2 m2 + fe) - fe)) as [mrs2 e2] eqn:E2.
  pose proof (shr_m_e (shr_record_of_loc m2 loc_Exact) fe
                (fexp prec emax (Zdigits2 m2 + fe) - fe)) as H2.
  rewrite shr_record_of_loc_m, E2 in H2. cbn [fst snd] in H2.
  assert (Hm2pos : 0 <= m2) by lia.
  specialize (H2 Hm2pos). destruct H2 as [Hm3 He2].
  destruct (Z.eqb_spec m2 0) as [Hz2|Hnz2].
  { rewrite Hz2 in Hm3. rewrite Z.div_0_l in Hm3 by (apply Z.pow_nonzero; lia).
    rewrite Hm3. split; [reflexivity|]. unfold emin.
    destruct (Z.leb_spec (3 - emax - prec) (D - prec)) as [Hn|]; [|lia].
    specialize (Hnormal Hn). lia. }
  assert (Hp2 : 0 < m2) by lia. specialize (Hd2 Hp2). destruct Hd2 as (Hle & Hmag & Hge).
  rewrite (Zdigits2_log2 m2 Hp2) in *.
  set (d2 := Z.log2 m2 + 1) in *.
  assert (Hn2 : fexp prec emax (d2 + fe) - fe = if Z.eqb d2 (prec + 1) then 1 else 0).
  { unfold fexp, emin. destruct (Z.eqb_spec d2 (prec + 1)); lia. }
  rewrite Hn2 in *. unfold emin.
  destruct (Z.eqb_spec d2 (prec + 1)) as [Hcarry|Hnocarry].
  - (* the rounding carried into a new bit *)
    rewrite Z.max_r in * by lia.
    assert (Hm3pos : 0 < shr_m mrs2).
    { rewrite Hm3. apply Z.div_str_pos. split; [lia|].
      change (2 ^ 1) with 2.
      assert (2 ^ Z.log2 m2 <= m2) by (apply Z.log2_spec; lia).
      assert (2 ^ 1 <= 2 ^ Z.log2 m2) by (apply Z.pow_le_mono_r; lia).
      lia. }
    assert (Hl3 : Z.log2 (shr_m mrs2) = Z.log2 m2 - 1).
    { rewrite Hm3. apply log2_div_pow2; lia. }
    destruct (shr_m mrs2) as [|m3|m3] eqn:E3; try lia.
    assert (Hn : 3 - emax - prec <= D - prec).
    { destruct (Z.leb_spec (3 - emax - prec) (D - prec)); [lia|].
      assert (m1 <> 0).
      { intros Hz. assert (H21 : m2 = 1) by lia. subst d2. rewrite H21 in Hcarry.
        change (Z.log2 1) with 0 in Hcarry. lia. }
      specialize (Hd1 ltac:(lia)).
      pose proof (log2_succ_bounds m1 Hm1pos) as Hs.
      assert (Z.log2 m2 <= Z.log2 m1 + 1) by (destruct Hm2 as [->| ->]; lia).
      lia. }
    assert (He2le : (e2 <=? emax - prec) = true) by (apply Z.leb_le; lia).
    rewrite He2le.
    split; [reflexivity|]. split; [|split].
    + unfold bounded, canonical_mantissa. rewrite digits2_log2, Hl3.
      apply andb_true_intro. split; [apply Z.eqb_eq; unfold fexp, emin; lia | assumption].
    + rewrite digits2_log2, Hl3. lia.
    + rewrite digits2_log2, Hl3. lia.
  - rewrite Z.max_l in * by lia. cbn in Hm3. rewrite Z.div_1_r in Hm3.
    rewrite Hm3.
    destruct m2 as [|m3|m3] eqn:E3; try lia.
    assert (He2le : (e2 <=? emax - prec) = true) by (apply Z.leb_le; lia).
    rewrite He2le.
    split; [reflexivity|]. split; [|split].
    + unfold bounded, canonical_mantissa. rewrite digits2_log2. fold d2.
      apply andb_true_intro. split; [apply Z.eqb_eq; unfold fexp, emin; lia | assumption].
    + rewrite digits2_log2. fold d2. lia.
    + rewrite digits2_log2. fold d2. lia.
Qed.

Lemma binary_round_number (s : bool) (m : positive) (e : Z) :
  let D := Zpos (digits2_pos m) + e in
  D <= emax - 1 ->
  match binary_round prec emax s m e with
  | S754_zero s' => s' = s /\ D < emin prec emax + prec
  | S754_finite s' m' e' =>
      s' = s /\ bounded prec emax m' e' = true /\
      Zpos (digits2_pos m') + e' <= Z.max (D + 1) (emin prec emax + 1) /\
      (emin prec emax + prec <= D -> D <= Zpos (digits2_pos m') + e')
  | _ => False
  end.
Proof.
  intros D HD. unfold binary_round.
  fold D.
  pose proof (shl_align_spec m e (fexp prec emax D)) as Hal.
  destruct (shl_align m e (fexp prec emax D)) as [mz ez]. cbn [fst snd] in Hal.
  destruct Hal as [Hez Hmz].
  assert (HDz : Zpos (digits2_pos mz) + ez = D).
  { rewrite digits2_log2, Hmz, Z.log2_mul_pow2 by lia. unfold D. rewrite digits2_log2. lia. }
  pose proof (binary_round_aux_number s mz ez loc_Exact) as Haux.
  cbv zeta in Haux. rewrite HDz in Haux. apply Haux; lia.
Qed.

Lemma binary_normalize_below (z ez k : Z) :
  Z.abs z < 2 ^ (k - ez) -> ez <= k -> emin prec emax <= k <= emax - 1 ->
  below prec emax (k + 1) (binary_normalize prec emax z ez false) = true.
Proof.
  intros Hz Hez Hk.
  assert (Hround : forall s m, Zpos m < 2 ^ (k - ez) ->
            below prec emax (k + 1) (binary_round prec emax s m ez) = true).
  { intros s m Hm.
    assert (Hlog : Z.log2 (Zpos m) < k - ez) by (apply Z.log2_lt_pow2; lia).
    pose proof (binary_round_number s m ez) as Hr. cbv zeta in Hr.
    rewrite digits2_log2 in Hr. specialize (Hr ltac:(lia)).
    destruct (binary_round prec emax s m ez) as [s'|s'| |s' m' e']; try easy.
    destruct Hr as (_ & Hb & Hd & _). cbn [below]. rewrite Hb. cbn [andb].
    apply Z.leb_le. lia. }
  destruct z as [|m|m]; cbn [binary_normalize].
  - reflexivity.
  - apply Hround. lia.
  - apply Hround. lia.
Qed.

Lemma aligned_bound (s : bool) (m : positive) (e ez k : Z) :
  ez <= e -> Zpos (digits2_pos m) + e <= k ->
  Z.abs (cond_Zopp s (Zpos (fst (shl_align m e ez)))) < 2 ^ (k - ez).
Proof.
  intros Hez Hk.
  pose proof (shl_align_spec m e ez) as Hal. cbv zeta in Hal. destruct Hal as [Hsnd Hfst].
  rewrite Z.min_r in Hsnd by lia. rewrite Hsnd in Hfst.
  assert (Habs : Z.abs (cond_Zopp s (Zpos (fst (shl_align m e ez)))) =
                 Zpos (fst (shl_align m e ez))) by (destruct s; reflexivity).
  rewrite Habs, Hfst.
  rewrite digits2_log2 in Hk.
  assert (Hm : Zpos m < 2 ^ (Z.log2 (Zpos m) + 1)).
  { pose proof (Z.log2_spec (Zpos m) ltac:(lia)) as Hspec. unfold Z.succ in Hspec. lia. }
  apply Z.lt_le_trans with (2 ^ (Z.log2 (Zpos m) + 1) * 2 ^ (e - ez)).
  - apply Z.mul_lt_mono_pos_r; [apply Z.pow_pos_nonneg; lia | assumption].
  - rewrite <- Z.pow_add_r by (pose proof (Z.log2_nonneg (Zpos m)); lia).
    apply Z.pow_le_mono_r; lia.
Qed.

(** A sum and a difference of two numbers below [2 ^ k] are numbers below
    [2 ^ (k + 2)]: nothing overflows down there. *)
Lemma add_below (k : Z) (x y : spec_float) :
  emin prec emax - 1 <= k <= emax - 3 ->
  below prec emax k x = true -> below prec emax k y = true ->
  below prec emax (k + 2) (SFadd prec emax x y) = true.
Proof.
  intros Hk Hx Hy.
  destruct x as [sx|sx| |sx mx ex], y as [sy|sy| |sy my ey]; try discriminate.
  - destruct sx, sy; reflexivity.
  - apply (below_mono prec emax k); [lia | assumption].
  - apply (below_mono prec emax k); [lia | assumption].
  - cbn [below] in Hx, Hy.
    apply andb_prop in Hx as [_ Hx], Hy as [_ Hy]. apply Z.leb_le in Hx, Hy.
    cbn [SFadd]. cbv zeta.
    replace (k + 2) with (k + 1 + 1) by lia.
    assert (Hex : Z.min ex ey <= ex) by lia.
    assert (Hey : Z.min ex ey <= ey) by lia.
    pose proof (aligned_bound sx mx ex (Z.min ex ey) k Hex Hx) as Hbx.
    pose proof (aligned_bound sy my ey (Z.min ex ey) k Hey Hy) as Hby.
    assert (Hmin : Z.min ex ey <= k) by lia.
    change (IntDef.Z.min ex ey) with (Z.min ex ey).
    apply binary_normalize_below; [|lia|lia].
    replace (k + 1 - Z.min ex ey) with (Z.succ (k - Z.min ex ey)) by lia.
    rewrite Z.pow_succ_r by lia. lia.
Qed.

Lemma sub_below (k : Z) (x y : spec_float) :
  emin prec emax - 1 <= k <= emax - 3 ->
  below prec emax k x = true -> below prec emax k y = true ->
  below prec emax (k + 2) (SFsub prec emax x y) = true.
Proof.
  intros Hk Hx Hy.
  destruct x as [sx|sx| |sx mx ex], y as [sy|sy| |sy my ey]; try discriminate.
  - destruct sx, sy; reflexivity.
  - apply (below_mono prec emax k); [lia | exact Hy].
  - apply (below_mono prec emax k); [lia | assumption].
  - cbn [below] in Hx, Hy.
    apply andb_prop in Hx as [_ Hx], Hy as [_ Hy]. apply Z.leb_le in Hx, Hy.
    cbn [SFsub]. cbv zeta.
    replace (k + 2) with (k + 1 + 1) by lia.
    assert (Hex : Z.min ex ey <= ex) by lia.
    assert (Hey : Z.min ex ey <= ey) by lia.
    pose proof (aligned_bound sx mx ex (Z.min ex ey) k Hex Hx) as Hbx.
    pose proof (aligned_bound sy my ey (Z.min ex ey) k Hey Hy) as Hby.
    assert (Hmin : Z.min ex ey <= k) by lia.
    change (IntDef.Z.min ex ey) with (Z.min ex ey).
    apply binary_normalize_below; [|lia|lia].
    replace (k + 1 - Z.min ex ey) with (Z.succ (k - Z.min ex ey)) by lia.
    rewrite Z.pow_succ_r by lia. lia.
Qed.


End Format.

(** ** Rounding in binary32 *)

(** Multiplying by 1 changes nothing: the product has the mantissa of the
    number followed by 23 zero bits, which the rounding shifts out again. *)
Lemma mul_1_r (s : bool) (m : positive) (e : Z) :
  bounded 24 128 m e = true ->
  SFmul 24 128 (S754_finite s m e) (S754_finite false 8388608 (-23)) = S754_finite s m e.
Proof.
  intros Hb. apply bounded_spec in Hb as [Hc He].
  cbn [SFmul]. rewrite xorb_false_r, Pos.mul_comm.
  assert (Hmul : (8388608 * m)%positive =
                 (m~0~0~0~0~0~0~0~0~0~0~0~0~0~0~0~0~0~0~0~0~0~0~0)%positive) by reflexivity.
  rewrite Hmul. clear Hmul. unfold binary_round_aux, shr_fexp.
  assert (Hd : Zdigits2 (Zpos m~0~0~0~0~0~0~0~0~0~0~0~0~0~0~0~0~0~0~0~0~0~0~0) + (e + -23)
               = Zpos (digits2_pos m) + e).
  { cbn [Zdigits2 digits2_pos]. rewrite !Pos2Z.inj_succ. lia. }
  rewrite Hd, Hc.
  replace (e - (e + -23)) with 23 by lia.
  cbn [shr shr_record_of_loc SpecFloat.iter_pos shr_1 orb loc_of_shr_record
       round_nearest_even shr_m].
  replace (e + -23 + 23) with e by lia.
  cbn [Zdigits2]. rewrite Hc, Z.sub_diag. cbn [shr shr_m].
  assert (Hle : (e <=? 128 - 24) = true) by (apply Z.leb_le; lia).
  now rewrite Hle.
Qed.

Lemma mul_1_l (s : bool) (m : positive) (e : Z) :
  bounded 24 128 m e = true ->
  SFmul 24 128 (S754_finite false 8388608 (-23)) (S754_finite s m e) = S754_finite s m e.
Proof.
  intros Hb. rewrite <- (mul_1_r s m e Hb) at 2.
  cbn [SFmul]. rewrite xorb_false_r. cbn [xorb].
  rewrite (Pos.mul_comm m), (Z.add_comm e). reflexivity.
Qed.

Lemma mul_one_r (x : float) : F32.is_number x = true -> (x * 1)%f32 = x.
Proof.
  destruct x as [s|s| |s m e]; try discriminate; intros Hx.
  - now destruct s.
  - now apply mul_1_r.
Qed.

(** The products, sums and differences in which one side is a zero. *)
Lemma mul_f_z (a b : bool) (m : positive) (e : Z) :
  SFmul 24 128 (S754_finite a m e) (S754_zero b) = S754_zero (xorb a b).
Proof. reflexivity. Qed.

Lemma mul_z_f (a b : bool) (m : positive) (e : Z) :
  SFmul 24 128 (S754_zero a) (S754_finite b m e) = S754_zero (xorb a b).
Proof. reflexivity. Qed.

Lemma mul_z_z (a b : bool) :
  SFmul 24 128 (S754_zero a) (S754_zero b) = S754_zero (xorb a b).
Proof. reflexivity. Qed.

Lemma add_z_z (a b : bool) :
  SFadd 24 128 (S754_zero a) (S754_zero b) = S754_zero (a && b).
Proof. now destruct a, b. Qed.

Lemma add_z_f (a b : bool) (m : positive) (e : Z) :
  SFadd 24 128 (S754_zero a) (S754_finite b m e) = S754_finite b m e.
Proof. reflexivity. Qed.

Lemma add_f_z (a b : bool) (m : positive) (e : Z) :
  SFadd 24 128 (S754_finite a m e) (S754_zero b) = S754_finite a m e.
Proof. reflexivity. Qed.

Lemma sub_z_z (a b : bool) :
  SFsub 24 128 (S754_zero a) (S754_zero b) = S754_zero (a && negb b).
Proof. now destruct a, b. Qed.

Lemma sub_z_f (a b : bool) (m : positive) (e : Z) :
  SFsub 24 128 (S754_zero a) (S754_finite b m e) = S754_finite (negb b) m e.
Proof. reflexivity. Qed.

Lemma eqb_finite_refl (s : bool) (m : positive) (e : Z) :
  SFeqb (S754_finite s m e) (S754_finite s m e) = true.
Proof.
  unfold SFeqb. cbn [SFcompare].
  destruct s; rewrite Z.compare_refl, Pos.compare_cont_refl; reflexivity.
Qed.

Ltac float_simpl :=
  repeat first
    [ rewrite mul_f_z | rewrite mul_z_f | rewrite mul_z_z
    | rewrite add_z_z | rewrite add_z_f | rewrite add_f_z
    | rewrite sub_z_z | rewrite sub_z_f
    | rewrite mul_1_r by assumption | rewrite mul_1_l by assumption ].

(** [glm::rotate] of the identity about the Z axis, entry by entry, when the
    cosine is a number below 2 in magnitude and the sine is a number: the
    cosine and the sine where a rotation has them, zeros (of either sign)
    where it has zeros, 1 in the last column, and [c + (1 - c)] where it has
    the other 1. *)
Lemma rotate_about_z (cos sin : float -> float) (a : float) :
  let c := cos a in
  let s := sin a in
  let transform := glm.rotate cos sin (glm.mat4_diag 1%f32) a (glm.mkvec3 0 0 1)%f32 in
  F32.below 1 c = true -> F32.is_number s = true ->
  Forall2 (fun x y => F32.eqb x y = true)
    [ glm.v4x (glm.col0 transform); glm.v4y (glm.col0 transform);
      glm.v4z (glm.col0 transform); glm.v4w (glm.col0 transform);
      glm.v4x (glm.col1 transform); glm.v4y (glm.col1 transform);
      glm.v4z (glm.col1 transform); glm.v4w (glm.col1 transform);
      glm.v4x (glm.col2 transform); glm.v4y (glm.col2 transform);
      glm.v4z (glm.col2 transform); glm.v4w (glm.col2 transform);
      glm.v4x (glm.col3 transform); glm.v4y (glm.col3 transform);
      glm.v4z (glm.col3 transform); glm.v4w (glm.col3 transform) ]
    [ c; s; 0; 0;
      - s; c; 0; 0;
      0; 0; c + (1 - c); 0;
      0; 0; 0; 1 ]%f32.
Proof.
  cbv zeta. unfold glm.rotate.
  assert (Haxis : glm.normalize (glm.mkvec3 0 0 1)%f32 = (glm.mkvec3 0 0 1)%f32)
    by (vm_compute; reflexivity).
  rewrite Haxis. clear Haxis.
  generalize (cos a) (sin a). clear cos sin a. intros c s Hc Hs.
  assert (Ht : F32.below 3 (1 - c)%f32 = true).
  { apply (sub_below 24 128 eq_refl eq_refl 1); [unfold emin; lia | reflexivity | assumption]. }
  assert (Hr : F32.below 5 (c + (1 - c))%f32 = true).
  { apply (add_below 24 128 eq_refl eq_refl 3);
      [unfold emin; lia | apply (below_mono 24 128 1); [lia | assumption] | assumption]. }
  apply below_is_number in Hc, Ht, Hr.
  cbv [glm.scale3 glm.scale4 glm.add4 glm.mat4_diag
       glm.v3x glm.v3y glm.v3z glm.v4x glm.v4y glm.v4z glm.v4w
       glm.col0 glm.col1 glm.col2 glm.col3].
  rewrite (mul_one_r _ Ht).
  set (t := (1 - c)%f32) in *.
  rewrite (mul_one_r _ Ht).
  set (r := (c + t)%f32) in *.
  clearbody r t.
  change 1%f32 with (S754_finite false 8388608 (-23)).
  change 0%f32 with (S754_zero false).
  cbv [F32.add F32.sub F32.mul F32.neg F32.eqb F32.is_number] in *.
  change F32.prec with 24 in *. change F32.emax with 128 in *.
  destruct c as [sc|sc| |sc mc ec]; try discriminate;
  destruct s as [ss|ss| |ss ms es]; try discriminate;
  destruct t as [st|st| |st mt et]; try discriminate;
  destruct r as [sr|sr| |sr mr er]; try discriminate;
  cbn [is_number] in *; float_simpl; cbn [SFopp];
  repeat (constructor; [first [reflexivity | apply eqb_finite_refl]|]); constructor.
Qed.

(** ** The sign of a timer reading *)




(** ** The claims *)




(** C2, as the code has it.  In every pass of the loop the sixteen floats
    handed to [glUniformMatrix4fv] are the entries, column after column, of
    [glm::rotate(glm::mat4(1.0f), rotationAngle, (0,0,1))] as [float]
    arithmetic computes it from the cosine and the sine of the C library.
    Its last column is (0, 0, 0, 1).  When the library answers with a number
    below 2 in magnitude for the cosine and with a number for the sine, the
    sixteen floats are equal, as floats compare, to the cosine, the sine,
    0, 0, minus the sine, the cosine, 0, 0, 0, 0, [c + (1 - c)], 0, 0, 0, 0,
    1: a rotation about the Z axis but for the eleventh, where the two
    roundings of [c + (1 - c)] need not give 1.  When the angle is 0 and the
    library answers 1 and 0 for the cosine and the sine of 0, it is the
    identity matrix. *)
Theorem transform_is_z_rotation (w : World) (n : nat) :
  let a := angle_of_frame w n in
  let transform :=
    glm.rotate (w_cos w) (w_sin w) (glm.mat4_diag 1%f32) a (glm.mkvec3 0 0 1)%f32 in
  matrices_of (trace (frame_start w (S n))) =
    matrices_of (trace (frame_start w n)) ++
    [(to_GLint (to_GLuint (w_glGetUniformLocation w "transform")), 1, false,
      [ glm.v4x (glm.col0 transform); glm.v4y (glm.col0 transform);
        glm.v4z (glm.col0 transform); glm.v4w (glm.col0 transform);
        glm.v4x (glm.col1 transform); glm.v4y (glm.col1 transform);
        glm.v4z (glm.col1 transform); glm.v4w (glm.col1 transform);
        glm.v4x (glm.col2 transform); glm.v4y (glm.col2 transform);
        glm.v4z (glm.col2 transform); glm.v4w (glm.col2 transform);
        glm.v4x (glm.col3 transform); glm.v4y (glm.col3 transform);
        glm.v4z (glm.col3 transform); glm.v4w (glm.col3 transform) ])] /\
  glm.col3 transform = (glm.mkvec4 0 0 0 1)%f32 /\
  (F32.below 1 (w_cos w a) = true -> F32.is_number (w_sin w a) = true ->
   Forall2 (fun x y => F32.eqb x y = true)
     [ glm.v4x (glm.col0 transform); glm.v4y (glm.col0 transform);
       glm.v4z (glm.col0 transform); glm.v4w (glm.col0 transform);
       glm.v4x (glm.col1 transform); glm.v4y (glm.col1 transform);
       glm.v4z (glm.col1 transform); glm.v4w (glm.col1 transform);
       glm.v4x (glm.col2 transform); glm.v4y (glm.col2 transform);
       glm.v4z (glm.col2 transform); glm.v4w (glm.col2 transform);
       glm.v4x (glm.col3 transform); glm.v4y (glm.col3 transform);
       glm.v4z (glm.col3 transform); glm.v4w (glm.col3 transform) ]
     [ w_cos w a; w_sin w a; 0; 0;
       - w_sin w a; w_cos w a; 0; 0;
       0; 0; w_cos w a + (1 - w_cos w a); 0;
       0; 0; 0; 1 ]%f32) /\
  (a = 0%f32 -> w_cos w 0%f32 = 1%f32 -> w_sin w 0%f32 = 0%f32 ->
   transform = glm.mat4_diag 1%f32).
Proof.
  cbv zeta. split; [|split; [|split]].
  - rewrite frame_start_trace_S. unfold matrices_of. rewrite !flat_map_app.
    fold (matrices_of (callback_calls (w_events w (polls (frame_start w n))))).
    destruct (callback_calls_readings (w_events w (polls (frame_start w n))))
      as (_ & _ & _ & -> & _).
    reflexivity.
  - reflexivity.
  - apply (rotate_about_z (w_cos w) (w_sin w)).
  - intros -> Hc Hsn. unfold glm.rotate. rewrite Hc, Hsn. vm_compute. reflexivity.
Qed.

Lemma transform_is_z_rotation_witness :
  angle_of_frame w_still 0 = 0%f32 /\
  matrices_of (trace (frame_start w_still 1)) =
    [(0, 1, false,
      [ 1; 0; 0; 0;
        0; 1; 0; 0;
        0; 0; 1; 0;
        0; 0; 0; 1 ]%f32)] /\
  (let a := angle_of_frame w_rounding 0 in
   let transform :=
     glm.rotate (w_cos w_rounding) (w_sin w_rounding) (glm.mat4_diag 1%f32) a
       (glm.mkvec3 0 0 1)%f32 in
   Forall2 (fun x y => F32.eqb x y = true)
     [ glm.v4x (glm.col0 transform); glm.v4y (glm.col0 transform);
       glm.v4z (glm.col0 transform); glm.v4w (glm.col0 transform);
       glm.v4x (glm.col1 transform); glm.v4y (glm.col1 transform);
       glm.v4z (glm.col1 transform); glm.v4w (glm.col1 transform);
       glm.v4x (glm.col2 transform); glm.v4y (glm.col2 transform);
       glm.v4z (glm.col2 transform); glm.v4w (glm.col2 transform);
       glm.v4x (glm.col3 transform); glm.v4y (glm.col3 transform);
       glm.v4z (glm.col3 transform); glm.v4w (glm.col3 transform) ]
     [ w_cos w_rounding a; w_sin w_rounding a; 0; 0;
       - w_sin w_rounding a; w_cos w_rounding a; 0; 0;
       0; 0; w_cos w_rounding a + (1 - w_cos w_rounding a); 0;
       0; 0; 0; 1 ]%f32).
Proof.
  assert (Ha : angle_of_frame w_still 0 = 0%f32) by (vm_compute; reflexivity).
  destruct (transform_is_z_rotation w_still 0) as (Hup & _ & _ & Hid).
  destruct (transform_is_z_rotation w_rounding 0) as (_ & _ & Hform & _).
  split; [exact Ha|]. split.
  - rewrite Hup, (Hid Ha eq_refl eq_refl). vm_compute. reflexivity.
  - assert (Hc : F32.below 1 (w_cos w_rounding (angle_of_frame w_rounding 0)) = true)
      by (vm_compute; reflexivity).
    assert (Hsn : F32.is_number (w_sin w_rounding (angle_of_frame w_rounding 0)) = true)
      by (vm_compute; reflexivity).
    exact (Hform Hc Hsn).
Defined.

(** C2, as the claim has it, fails.  In [w_rounding] the angle of the first
    pass is 4.5, and the matrix uploaded has 0.99999994 where a rotation
    about the Z axis has 1: the entry is the cosine plus the rounded
    difference of 1 and the cosine, and the sum rounds below 1. *)
Lemma transform_is_not_exactly_a_rotation :
  angle_of_frame w_rounding 0 = F32.lit 9 (-1) /\
  matrices_of (trace (frame_start w_rounding 1)) =
    [(0, 1, false,
      [ S754_finite true 14146267 (-26); S754_finite true 16400234 (-24); 0%f32; 0%f32;
        S754_finite false 16400234 (-24); S754_finite true 14146267 (-26); 0%f32; 0%f32;
        0%f32; 0%f32; S754_finite false 16777215 (-24); 0%f32;
        0%f32; 0%f32; 0%f32; 1%f32 ])] /\
  (w_cos w_rounding (F32.lit 9 (-1)) +
   (1 - w_cos w_rounding (F32.lit 9 (-1))))%f32 = S754_finite false 16777215 (-24) /\
  F32.eqb (S754_finite false 16777215 (-24)) 1%f32 = false.
Proof.
  repeat split; vm_compute; reflexivity.
Qed.

(** C3, as the code has it.  Once the link status has been read, and the
    log printed if linking failed, [main] gives both shader names to
    [glDeleteShader], whether or not linking succeeded.  It never calls
    [glDetachShader]: the program object keeps both names attached. *)
Theorem shaders_deleted_after_link_attempt (w : World) :
  started w = true ->
  let vertexShader := w_glCreateShader w GL_VERTEX_SHADER in
  let fragmentShader := w_glCreateShader w GL_FRAGMENT_SHADER in
  let shaderProgram := w_glCreateProgram w in
  let s := loop_entry w in
  vertexShader ∈ deleted s /\ fragmentShader ∈ deleted s /\
  (exists before,
     trace s =
       before ++
       [ Call_glLinkProgram shaderProgram; Call_glGetProgramiv shaderProgram GL_LINK_STATUS ] ++
       (if fst (link_result w) then [] else [ Call_glGetProgramInfoLog shaderProgram 512 ]) ++
       [ Call_glDeleteShader vertexShader; Call_glDeleteShader fragmentShader ] ++
       geometry_calls w) /\
  programs s !! shaderProgram =
    Some (mkProgram [vertexShader; fragmentShader] (fst (link_result w)) (snd (link_result w))) /\
  forall n, existsb is_detach (trace (frame_start w n)) = false.
Proof.
  intros Hs. cbv zeta. rewrite loop_entry_eq by assumption.
  cbn [deleted trace programs].
  split; [set_solver|]. split; [set_solver|]. split; [|split].
  - exists (startup_calls w ++
            [ Call_ifstream vertex_path; Call_ifstream fragment_path ] ++
            stage_calls GL_VERTEX_SHADER (w_glCreateShader w GL_VERTEX_SHADER)
              (stage_source w vertex_path) (fst (vertex_result w)) ++
            stage_calls GL_FRAGMENT_SHADER (w_glCreateShader w GL_FRAGMENT_SHADER)
              (stage_source w fragment_path) (fst (fragment_result w)) ++
            [ Call_glCreateProgram;
              Call_glAttachShader (w_glCreateProgram w) (w_glCreateShader w GL_VERTEX_SHADER);
              Call_glAttachShader (w_glCreateProgram w)
                (w_glCreateShader w GL_FRAGMENT_SHADER) ]).
    unfold pipeline_calls, link_calls. rewrite <- !app_assoc. reflexivity.
  - apply lookup_insert_eq.
  - intros n. now destruct (frame_start_readings w n Hs) as (_ & _ & _ & Hx).
Qed.

Lemma shaders_deleted_after_link_attempt_witness :
  1 ∈ deleted (loop_entry w_demo) /\ 2 ∈ deleted (loop_entry w_demo).
Proof.
  destruct (shaders_deleted_after_link_attempt w_demo eq_refl) as (Hv & Hf & _).
  split; assumption.
Defined.

(** C3, as the claim has it, fails: in [w_link_fails] linking fails, the
    linking error is printed, and both shaders are deleted all the same. *)
Lemma shaders_deleted_when_linking_fails :
  fst (link_result w_link_fails) = false /\
  cerr (loop_entry w_link_fails) =
    [ OutStr "Shader Program Linking Error: "; OutStr "error: linking failed"; OutEndl ] /\
  In (Call_glDeleteShader 1) (trace (loop_entry w_link_fails)) /\
  In (Call_glDeleteShader 2) (trace (loop_entry w_link_fails)) /\
  1 ∈ deleted (loop_entry w_link_fails) /\
  2 ∈ deleted (loop_entry w_link_fails).
Proof.
  rewrite loop_entry_eq by reflexivity. cbn [deleted trace cerr].
  split; [reflexivity|]. split; [reflexivity|].
  split; [cbn; tauto|]. split; [cbn; tauto|].
  split; cbn; set_solver.
Qed.

(** C4. [loadShaderSource] tries to open the file once.  When the file
    opens, the result is its whole contents and nothing is written to
    [std::cerr] (so an empty file gives the empty string and no diagnostic);
    when it does not open, the result is the empty string and one diagnostic
    line naming the path is written. *)
Theorem loadShaderSource_spec (w : World) (filePath : string) (s : State) :
  let r := loadShaderSource w filePath s in
  trace (snd r) = trace s ++ [Call_ifstream filePath] /\
  match w_file w filePath with
  | Some contents => fst r = contents /\ cerr (snd r) = cerr s
  | None =>
      fst r = EmptyString /\
      cerr (snd r) =
        cerr s ++ [OutStr "Failed to open shader file: "; OutStr filePath; OutEndl]
  end.
Proof.
  cbv zeta. rewrite loadShaderSource_eq. unfold loaded, load_diag.
  destruct s; cbn [fst snd trace cerr set_trace set_cerr].
  destruct (w_file w filePath); (split; [reflexivity|split; [reflexivity|]]).
  - apply app_nil_r.
  - reflexivity.
Qed.

(** C5, as the code has it.  What [main] has written to [std::cerr] when
    it reaches the loop is the diagnostics of the two loads, the two
    compilations and the link, in that order.  A compilation that succeeded
    contributes nothing, and its log is not asked for.  One that failed
    contributes three items: its label, the log, and a line end.  The log is
    the driver's log cut to what fits a buffer of 512 characters with the
    terminating null: its length is the smaller of 511 and the length of the
    driver's log, it is the beginning of the driver's log, and it is empty
    exactly when the driver's log is.  The failure stops nothing: [main]
    goes on to link, reaches the loop, and returns as it would have
    otherwise. *)
Theorem compile_failure_is_reported_not_fatal (w : World) (fuel : nat) :
  started w = true ->
  let vertex := w_compile w GL_VERTEX_SHADER (c_str (loaded w vertex_path)) in
  let fragment := w_compile w GL_FRAGMENT_SHADER (c_str (loaded w fragment_path)) in
  let printed (lg : string) := string_take 511 lg in
  cerr (loop_entry w) =
    load_diag w vertex_path ++ load_diag w fragment_path ++
    (if fst vertex then []
     else [ OutStr "Vertex Shader Compilation Error: "; OutStr (printed (snd vertex));
            OutEndl ]) ++
    (if fst fragment then []
     else [ OutStr "Fragment Shader Compilation Error: "; OutStr (printed (snd fragment));
            OutEndl ]) ++
    status_diag "Shader Program Linking Error: " (link_result w) /\
  (forall lg,
     String.length (printed lg) = Nat.min 511 (String.length lg) /\
     (exists rest, lg = String.append (printed lg) rest) /\
     (printed lg = EmptyString <-> lg = EmptyString)) /\
  (exists before after,
     trace (loop_entry w) =
       before ++
       [ Call_glCompileShader (w_glCreateShader w GL_VERTEX_SHADER);
         Call_glGetShaderiv (w_glCreateShader w GL_VERTEX_SHADER) GL_COMPILE_STATUS ] ++
       (if fst vertex then []
        else [ Call_glGetShaderInfoLog (w_glCreateShader w GL_VERTEX_SHADER) 512 ]) ++
       [ Call_glCreateShader GL_FRAGMENT_SHADER;
         Call_glShaderSource (w_glCreateShader w GL_FRAGMENT_SHADER) 1
           (c_str (loaded w fragment_path));
         Call_glCompileShader (w_glCreateShader w GL_FRAGMENT_SHADER);
         Call_glGetShaderiv (w_glCreateShader w GL_FRAGMENT_SHADER) GL_COMPILE_STATUS ] ++
       (if fst fragment then []
        else [ Call_glGetShaderInfoLog (w_glCreateShader w GL_FRAGMENT_SHADER) 512 ]) ++
       Call_glCreateProgram :: after) /\
  is_Some (fst (setup w initial)) /\
  option_map fst (main w fuel) = if closes_by w fuel then Some 0 else None.
Proof.
  intros Hs. cbv zeta. split; [|split; [|split; [|split]]].
  - rewrite loop_entry_eq by assumption. reflexivity.
  - intros lg. split; [apply string_take_length|].
    split; [apply string_take_prefix|].
    destruct lg; split; intros H; try reflexivity; discriminate.
  - rewrite loop_entry_eq by assumption. cbn [trace].
    exists (startup_calls w ++
            [ Call_ifstream vertex_path; Call_ifstream fragment_path;
              Call_glCreateShader GL_VERTEX_SHADER;
              Call_glShaderSource (w_glCreateShader w GL_VERTEX_SHADER) 1
                (c_str (loaded w vertex_path)) ]).
    exists ([ Call_glAttachShader (w_glCreateProgram w) (w_glCreateShader w GL_VERTEX_SHADER);
              Call_glAttachShader (w_glCreateProgram w)
                (w_glCreateShader w GL_FRAGMENT_SHADER);
              Call_glLinkProgram (w_glCreateProgram w);
              Call_glGetProgramiv (w_glCreateProgram w) GL_LINK_STATUS ] ++
            (if fst (link_result w) then []
             else [ Call_glGetProgramInfoLog (w_glCreateProgram w) 512 ]) ++
            [ Call_glDeleteShader (w_glCreateShader w GL_VERTEX_SHADER);
              Call_glDeleteShader (w_glCreateShader w GL_FRAGMENT_SHADER) ] ++
            geometry_calls w).
    unfold pipeline_calls, stage_calls, link_calls, vertex_result, fragment_result,
      stage_source.
    rewrite <- !app_assoc. reflexivity.
  - rewrite setup_eq, Hs. eexists; reflexivity.
  - rewrite main_exit_code, Hs. reflexivity.
Qed.

Lemma compile_failure_is_reported_not_fatal_witness :
  cerr (loop_entry w_bad_vertex) =
    [ OutStr "Vertex Shader Compilation Error: ";
      OutStr "0:1(1): error: syntax error"; OutEndl ] /\
  option_map fst (main w_bad_vertex 2) = Some 0.
Proof.
  destruct (compile_failure_is_reported_not_fatal w_bad_vertex 2 eq_refl)
    as (Hcerr & _ & _ & _ & Hexit).
  split; [exact Hcerr | exact Hexit].
Defined.

(** C5, as the claim has it, fails.  In [w_silent_driver] the vertex shader
    does not compile and the driver's log is empty: the log [main] prints
    after the label is the empty string. *)
Lemma compile_failure_with_empty_log :
  fst (w_compile w_silent_driver GL_VERTEX_SHADER
         (c_str (loaded w_silent_driver vertex_path))) = false /\
  shaders (loop_entry w_silent_driver) !! 1 =
    Some (mkShader GL_VERTEX_SHADER "void main(){}" false EmptyString) /\
  In (Call_glGetShaderInfoLog 1 512) (trace (loop_entry w_silent_driver)) /\
  cerr (loop_entry w_silent_driver) =
    [ OutStr "Vertex Shader Compilation Error: "; OutStr EmptyString; OutEndl ].
Proof.
  split; [reflexivity|].
  rewrite loop_entry_eq by reflexivity. cbn [shaders trace cerr].
  split; [vm_compute; reflexivity|]. split; [|reflexivity].
  vm_compute. tauto.
Qed.

(** C6.  [main] returns -1 exactly when [glfwInit], [glfwCreateWindow] or
    [gladLoadGLLoader] fails, and 0 exactly when all three succeed and a poll
    delivers a close request; while none has come it does not return ([fuel]
    bounds the tests of the loop condition, and a close request delivered by
    the [n]-th poll is seen by the test number [n + 2]).  The value depends
    on nothing else: not on the shader files, the compile and link results or
    the uniform lookup. *)
Theorem exit_code_spec (w : World) (fuel : nat) :
  option_map fst (main w fuel) =
    (if started w then (if closes_by w fuel then Some 0 else None) else Some (-1)) /\
  (option_map fst (main w fuel) = Some (-1) <-> started w = false) /\
  (option_map fst (main w fuel) = Some 0 <->
   started w = true /\
   exists n, (n + 2 <= fuel)%nat /\ close_requested (w_events w n) = true) /\
  (main w fuel = None <->
   started w = true /\
   forall n, (n + 2 <= fuel)%nat -> close_requested (w_events w n) = false).
Proof.
  pose proof (main_exit_code w fuel) as Hexit.
  pose proof (closes_by_iff w fuel) as Hclose.
  split; [exact Hexit|].
  destruct (started w) eqn:Hs; [destruct (closes_by w fuel) eqn:Hc|]; rewrite Hexit.
  - split; [|split].
    + split; discriminate.
    + split; [intros _; split; [reflexivity | now apply Hclose] | reflexivity].
    + destruct (main w fuel); [|discriminate].
      split; [discriminate|]. intros [_ Hnone].
      destruct Hclose as [Hclose _]. destruct (Hclose eq_refl) as (n & Hn & Hreq).
      rewrite Hnone in Hreq by assumption. discriminate.
  - split; [|split].
    + split; discriminate.
    + split; [discriminate|]. intros [_ Hex]. apply Hclose in Hex. discriminate.
    + destruct (main w fuel); [discriminate|].
      split; [|reflexivity]. intros _. split; [reflexivity|].
      intros n Hn. destruct (close_requested (w_events w n)) eqn:Hreq; [|reflexivity].
      assert (Htrue : false = true) by (apply Hclose; eauto).
      discriminate.
  - split; [|split].
    + split; reflexivity.
    + split; [discriminate | intros [Hf _]; discriminate].
    + destruct (main w fuel); [|discriminate].
      split; [discriminate | intros [Hf _]; discriminate].
Qed.

(** C7.  Every pass of the loop makes the same calls in the same order:
    clear the colour buffer, use the program, read the clock (from which the
    transform is computed), look up the uniform and upload the matrix, bind
    the vertex array and draw, swap the buffers, poll the events (which may
    run the resize callback); then the loop condition is tested again.  The
    loop is in one of two states: it is [Closed] at the start of a pass
    exactly when an earlier poll delivered a close request, a pass runs only
    from [Running], and from [Closed] the loop is left.  The transform is
    [glm::rotate] of the identity by the timer reading of the pass about the
    Z axis, and it is uploaded to the location the lookup returned.  In a run
    where the [k]-th poll delivers the first close request there are [k + 1]
    passes, and
    then [main] deletes the vertex array, the buffer and the program,
    terminates GLFW and returns 0. *)
Theorem render_loop_protocol (w : World) (k fuel : nat) :
  started w = true ->
  first_close w k ->
  (k + 2 <= fuel)%nat ->
  let shaderProgram := w_glCreateProgram w in
  let VAO := w_glGenVertexArrays w in
  let VBO := w_glGenBuffers w in
  (forall n,
     let rotationAngle :=
       float_of_double
         (F64.div (F64.of_Z (to_uint64 (w_clock w (reading_tick w n) - w_clock w 0)))
            (F64.of_Z (w_frequency w))) in
     let transform :=
       glm.rotate (w_cos w) (w_sin w) (glm.mat4_diag 1%f32) rotationAngle
         (glm.mkvec3 0 0 1)%f32 in
     let transformLoc := to_GLuint (w_glGetUniformLocation w "transform") in
     trace (frame_start w (S n)) =
       trace (frame_start w n) ++
       [ Call_glClear GL_COLOR_BUFFER_BIT;
         Call_glUseProgram shaderProgram;
         Call_glfwGetTime;
         Call_glGetUniformLocation shaderProgram "transform";
         Call_glUniformMatrix4fv (to_GLint transformLoc) 1 false
           [ glm.v4x (glm.col0 transform); glm.v4y (glm.col0 transform);
             glm.v4z (glm.col0 transform); glm.v4w (glm.col0 transform);
             glm.v4x (glm.col1 transform); glm.v4y (glm.col1 transform);
             glm.v4z (glm.col1 transform); glm.v4w (glm.col1 transform);
             glm.v4x (glm.col2 transform); glm.v4y (glm.col2 transform);
             glm.v4z (glm.col2 transform); glm.v4w (glm.col2 transform);
             glm.v4x (glm.col3 transform); glm.v4y (glm.col3 transform);
             glm.v4z (glm.col3 transform); glm.v4w (glm.col3 transform) ];
         Call_glBindVertexArray VAO;
         Call_glDrawArrays GL_TRIANGLES 0 3;
         Call_glfwSwapBuffers;
         Call_glfwPollEvents ] ++
       callback_calls (w_events w n) ++
       [ Call_glfwWindowShouldClose ]) /\
  (forall f s,
     render_loop (S f) w shaderProgram VAO s =
     match loop_state s with
     | Closed => Some (snd (glfwWindowShouldClose s))
     | Running =>
         render_loop f w shaderProgram VAO
           (snd (frame w shaderProgram VAO (snd (glfwWindowShouldClose s))))
     end) /\
  (forall n,
     loop_state (frame_start w n) =
     if existsb (fun j => close_requested (w_events w j)) (seq 0 n) then Closed else Running) /\
  (forall n, (n <= k)%nat -> loop_state (frame_start w n) = Running) /\
  loop_state (frame_start w (S k)) = Closed /\
  exists s,
    main w fuel = Some (0, s) /\
    trace s =
      trace (frame_start w (S k)) ++
      [ Call_glDeleteVertexArrays 1 VAO; Call_glDeleteBuffers 1 VBO;
        Call_glDeleteProgram shaderProgram; Call_glfwTerminate ] /\
    glfw_up s = false.
Proof.
  intros Hs Hfirst Hfuel. cbv zeta.
  assert (Hstate : forall n,
             loop_state (frame_start w n) =
             if existsb (fun j => close_requested (w_events w j)) (seq 0 n)
             then Closed else Running).
  { intros n. unfold loop_state. now rewrite frame_start_should_close. }
  split; [|split; [|split; [|split; [|split]]]].
  - intros n. cbv zeta.
    rewrite frame_start_trace_S, frame_start_polls, angle_since_init by assumption.
    reflexivity.
  - intros f s. apply render_loop_S.
  - exact Hstate.
  - intros n Hn. rewrite Hstate.
    destruct (existsb _ (seq 0 n)) eqn:Hex; [|reflexivity].
    apply existsb_exists in Hex as (j & Hj & Hreq).
    apply in_seq in Hj. destruct Hfirst as [_ Hbefore].
    rewrite Hbefore in Hreq by lia. discriminate.
  - rewrite Hstate, seq_S, existsb_app. cbn.
    destruct Hfirst as [-> _]. now rewrite orb_true_r.
  - eexists. split; [apply (main_run w k fuel); assumption|].
    rewrite cleanup_trace. split; [reflexivity|].
    rewrite cleanup_eq. reflexivity.
Qed.

Lemma w_demo_first_close : first_close w_demo 0.
Proof. split; [reflexivity | intros j Hj; lia]. Qed.

Lemma render_loop_protocol_witness :
  trace (frame_start w_demo 1) =
    trace (frame_start w_demo 0) ++
    [ Call_glClear GL_COLOR_BUFFER_BIT;
      Call_glUseProgram 3;
      Call_glfwGetTime;
      Call_glGetUniformLocation 3 "transform";
      Call_glUniformMatrix4fv 0 1 false
        [ S754_finite true 15161439 (-24); S754_finite true 14367426 (-25); 0%f32; 0%f32;
          S754_finite false 14367426 (-25); S754_finite true 15161439 (-24); 0%f32; 0%f32;
          0%f32; 0%f32; 1%f32; 0%f32;
          0%f32; 0%f32; 0%f32; 1%f32 ];
      Call_glBindVertexArray 1;
      Call_glDrawArrays GL_TRIANGLES 0 3;
      Call_glfwSwapBuffers;
      Call_glfwPollEvents;
      Call_glfwWindowShouldClose ] /\
  loop_state (frame_start w_demo 0) = Running /\
  loop_state (frame_start w_demo 1) = Closed /\
  option_map fst (main w_demo 2) = Some 0.
Proof.
  destruct (render_loop_protocol w_demo 0 2 eq_refl w_demo_first_close (le_n 2))
    as (Hpass & _ & _ & Hrun & Hclosed & s & Hmain & _).
  split; [|split; [apply Hrun; constructor|split; [exact Hclosed|]]].
  - rewrite (Hpass 0%nat). vm_compute. reflexivity.
  - rewrite Hmain. reflexivity.
Defined.



(** C9.  In every pass [main] asks for the location of the uniform
    [transform] by name and calls [glUniformMatrix4fv] with that location,
    one matrix, no transposition, and the sixteen floats of the transform
    ([glm::rotate] of the identity by the angle of the pass about the Z
    axis), the four of the first column first, then those of the second, the
    third and the fourth.  When the name is unknown the location is -1, which
    survives the trip through the [GLuint] variable; the call is made
    nonetheless, the GL ignores it, no uniform changes, nothing is written to
    [std::cerr], and the pass goes on to draw, swap and poll as always.  For
    another location the matrix becomes the value of the uniform when the GL
    accepts it. *)
Theorem uniform_upload_each_frame (w : World) (n : nat) :
  let raw := w_glGetUniformLocation w "transform" in
  - 2 ^ 31 <= raw < 2 ^ 31 ->
  let transform :=
    glm.rotate (w_cos w) (w_sin w) (glm.mat4_diag 1%f32) (angle_of_frame w n)
      (glm.mkvec3 0 0 1)%f32 in
  let matrix :=
    [ glm.v4x (glm.col0 transform); glm.v4y (glm.col0 transform);
      glm.v4z (glm.col0 transform); glm.v4w (glm.col0 transform);
      glm.v4x (glm.col1 transform); glm.v4y (glm.col1 transform);
      glm.v4z (glm.col1 transform); glm.v4w (glm.col1 transform);
      glm.v4x (glm.col2 transform); glm.v4y (glm.col2 transform);
      glm.v4z (glm.col2 transform); glm.v4w (glm.col2 transform);
      glm.v4x (glm.col3 transform); glm.v4y (glm.col3 transform);
      glm.v4z (glm.col3 transform); glm.v4w (glm.col3 transform) ] in
  trace (frame_start w (S n)) =
    trace (frame_start w n) ++
    [ Call_glClear GL_COLOR_BUFFER_BIT;
      Call_glUseProgram (w_glCreateProgram w);
      Call_glfwGetTime;
      Call_glGetUniformLocation (w_glCreateProgram w) "transform";
      Call_glUniformMatrix4fv raw 1 false matrix;
      Call_glBindVertexArray (w_glGenVertexArrays w);
      Call_glDrawArrays GL_TRIANGLES 0 3;
      Call_glfwSwapBuffers;
      Call_glfwPollEvents ] ++
    callback_calls (w_events w (polls (frame_start w n))) ++
    [ Call_glfwWindowShouldClose ] /\
  uniforms (frame_start w (S n)) =
    (if raw =? -1 then uniforms (frame_start w n)
     else if w_glUniformMatrix4fv w raw then <[raw := matrix]> (uniforms (frame_start w n))
     else uniforms (frame_start w n)) /\
  cerr (frame_start w (S n)) = cerr (frame_start w n) /\
  should_close (frame_start w (S n)) =
    should_close (frame_start w n) ||
    close_requested (w_events w (polls (frame_start w n))).
Proof.
  intros raw Hraw transform matrix. subst raw transform matrix.
  split; [|split; [|split]].
  - rewrite frame_start_trace_S, GLint_roundtrip by assumption. reflexivity.
  - rewrite frame_start_uniforms_S. cbv zeta.
    rewrite GLint_roundtrip by assumption.
    destruct (w_glGetUniformLocation w "transform" =? -1); [reflexivity|].
    destruct (w_glUniformMatrix4fv w (w_glGetUniformLocation w "transform")); reflexivity.
  - destruct (frame_start_kept w (S n)) as (_ & _ & _ & _ & _ & _ & _ & _ & _ & ->).
    destruct (frame_start_kept w n) as (_ & _ & _ & _ & _ & _ & _ & _ & _ & ->).
    reflexivity.
  - apply frame_start_should_close_S.
Qed.

Lemma uniform_upload_each_frame_witness :
  matrices_of (trace (frame_start w_no_uniform 1)) =
    [(-1, 1, false,
      [ S754_finite true 15161439 (-24); S754_finite true 14367426 (-25); 0%f32; 0%f32;
        S754_finite false 14367426 (-25); S754_finite true 15161439 (-24); 0%f32; 0%f32;
        0%f32; 0%f32; 1%f32; 0%f32;
        0%f32; 0%f32; 0%f32; 1%f32 ])] /\
  uniforms (frame_start w_no_uniform 1) = uniforms (frame_start w_no_uniform 0) /\
  cerr (frame_start w_no_uniform 1) = cerr (frame_start w_no_uniform 0).
Proof.
  assert (Hraw : - 2 ^ 31 <= w_glGetUniformLocation w_no_uniform "transform" < 2 ^ 31).
  { change (w_glGetUniformLocation w_no_uniform "transform") with (-1). lia. }
  pose proof (uniform_upload_each_frame w_no_uniform 0 Hraw) as H.
  cbv zeta in H. destruct H as (Ht & Hu & Hc & _).
  assert (Hcond : (w_glGetUniformLocation w_no_uniform "transform" =? -1) = true)
    by reflexivity.
  rewrite Hcond in Hu.
  split; [|split; [exact Hu | exact Hc]].
  rewrite Ht. vm_compute. reflexivity.
Defined.

(** C10. With GLFW initialised, the two later failures leave different
    states behind.  When the window cannot be created, the last call [main]
    makes is [glfwTerminate] and the library is down when it returns -1.
    When the GL functions cannot be loaded, [main] returns -1 right after
    [gladLoadGLLoader]: [glfwTerminate] is never called, and the library and
    the window are still up. *)
Theorem startup_failures_clean_up_differently (w : World) (fuel : nat) :
  w_glfwInit w = true ->
  started w = false ->
  exists s,
    main w fuel = Some (-1, s) /\
    if w_glfwCreateWindow w then
      trace s =
        [ Call_glfwInit;
          Call_glfwWindowHint GLFW_CONTEXT_VERSION_MAJOR (HintInt 3);
          Call_glfwWindowHint GLFW_CONTEXT_VERSION_MINOR (HintInt 3);
          Call_glfwWindowHint GLFW_OPENGL_PROFILE GLFW_OPENGL_CORE_PROFILE;
          Call_glfwCreateWindow 800 600 "Rotating Triangle";
          Call_glfwMakeContextCurrent;
          Call_glfwSetFramebufferSizeCallback;
          Call_gladLoadGLLoader ] /\
      existsb is_terminate (trace s) = false /\
      glfw_up s = true /\ window_up s = true /\
      cerr s = [ OutStr ("Failed to initialize GLAD" ++ newline) ]
    else
      trace s =
        [ Call_glfwInit;
          Call_glfwWindowHint GLFW_CONTEXT_VERSION_MAJOR (HintInt 3);
          Call_glfwWindowHint GLFW_CONTEXT_VERSION_MINOR (HintInt 3);
          Call_glfwWindowHint GLFW_OPENGL_PROFILE GLFW_OPENGL_CORE_PROFILE;
          Call_glfwCreateWindow 800 600 "Rotating Triangle";
          Call_glfwTerminate ] /\
      glfw_up s = false /\ window_up s = false /\
      cerr s = [ OutStr ("Failed to create GLFW window" ++ newline) ].
Proof.
  intros Hi Hs. rewrite main_eq, Hs. eexists; split; [reflexivity|].
  rewrite startup_eq. unfold started in Hs. unfold startup_calls, startup_diag.
  rewrite Hi in *. cbn [andb negb] in *.
  destruct (w_glfwCreateWindow w); cbn [andb negb] in *.
  - rewrite Hs. cbn. repeat split.
  - cbn. repeat split.
Qed.

Lemma startup_failures_clean_up_differently_witness :
  (exists s, main w_no_glad 1 = Some (-1, s) /\
             existsb is_terminate (trace s) = false /\ glfw_up s = true /\
             window_up s = true) /\
  (exists s, main w_no_window 1 = Some (-1, s) /\
             last (trace s) = Some Call_glfwTerminate /\ glfw_up s = false).
Proof.
  split.
  - destruct (startup_failures_clean_up_differently w_no_glad 1 eq_refl eq_refl)
      as (s & Hm & Ht & Hx & Hg & Hw & _).
    exists s. cbn in Ht. repeat split; assumption.
  - destruct (startup_failures_clean_up_differently w_no_window 1 eq_refl eq_refl)
      as (s & Hm & Ht & Hg & _).
    exists s. cbn in Ht. rewrite Ht. repeat split; assumption.
Defined.

(** ** Further properties: the log of a whole run *)

Lemma flat_map_nested {A B C : Type} (f : B -> list C) (g : A -> list B) (l : list A) :
  flat_map f (flat_map g l) = flat_map (fun x => flat_map f (g x)) l.
Proof.
  induction l as [|x l IH]; [reflexivity|].
  cbn [flat_map]. now rewrite flat_map_app, IH.
Qed.

Lemma flat_map_nil_pointwise {A B : Type} (f : A -> list B) (l : list A) :
  (forall x, f x = []) -> flat_map f l = [].
Proof.
  intros Hf. induction l as [|x l IH]; [reflexivity|].
  cbn [flat_map]. now rewrite Hf, IH.
Qed.

(** The log at the start of the [n]-th pass: the setup, the first test of
    the loop condition, and the passes made so far. *)
Lemma frame_start_trace (w : World) (n : nat) :
  started w = true ->
  trace (frame_start w n) =
  (startup_calls w ++ pipeline_calls w ++ geometry_calls w) ++
  Call_glfwWindowShouldClose :: flat_map (pass_calls w) (seq 0 n).
Proof.
  intros Hs. induction n as [|n IH].
  - now rewrite frame_start_trace_0.
  - rewrite frame_start_trace_S, IH, frame_start_polls by assumption.
    rewrite seq_S, flat_map_app. cbn [flat_map seq Nat.add]. rewrite app_nil_r.
    unfold pass_calls. rewrite <- !app_assoc. reflexivity.
Qed.

Lemma frame_start_cout (w : World) (n : nat) :
  started w = true ->
  cout (frame_start w n) =
  flat_map (fun i => frame_report (angle_of_frame w i)) (seq 0 n).
Proof.
  intros Hs. induction n as [|n IH].
  - rewrite frame_start_0, glfwWindowShouldClose_eq, loop_entry_eq by assumption.
    reflexivity.
  - rewrite frame_start_cout_S, IH, seq_S, flat_map_app. cbn [flat_map seq Nat.add].
    now rewrite app_nil_r.
Qed.

Lemma callback_calls_more_readings (es : list WindowEvent) :
  opens_of (callback_calls es) = [] /\
  lifecycle_of (callback_calls es) = [] /\
  viewports_of (callback_calls es) =
    map (fun size => (0, 0, fst size, snd size)) (resizes_of es).
Proof.
  induction es as [|[|width height] es (IH1 & IH2 & IH3)].
  - repeat split.
  - repeat split; assumption.
  - split; [exact IH1|]. split; [exact IH2|].
    change (viewports_of (callback_calls (FramebufferResized width height :: es)))
      with ((0, 0, width, height) :: viewports_of (callback_calls es)).
    rewrite IH3. reflexivity.
Qed.

Lemma pass_calls_readings (w : World) (n : nat) :
  opens_of (pass_calls w n) = [] /\
  lifecycle_of (pass_calls w n) = [] /\
  viewports_of (pass_calls w n) =
    map (fun size => (0, 0, fst size, snd size)) (resizes_of (w_events w n)).
Proof.
  destruct (callback_calls_more_readings (w_events w n)) as (H1 & H2 & H3).
  unfold pass_calls, opens_of, lifecycle_of, viewports_of in *.
  rewrite !(flat_map_app _ (frame_calls _ _ _ _)), !(flat_map_app _ (callback_calls _)).
  rewrite H1, H2, H3. cbn [flat_map frame_calls app is_lifecycle].
  rewrite !app_nil_r. repeat split.
Qed.

Lemma setup_calls_more_readings (w : World) :
  started w = true ->
  let t := startup_calls w ++ pipeline_calls w ++ geometry_calls w in
  opens_of t = [ vertex_path; fragment_path ] /\
  viewports_of t = [] /\
  lifecycle_of t =
    [ Call_glfwInit;
      Call_glfwCreateWindow 800 600 "Rotating Triangle";
      Call_glCreateShader GL_VERTEX_SHADER;
      Call_glCreateShader GL_FRAGMENT_SHADER;
      Call_glCreateProgram;
      Call_glDeleteShader (w_glCreateShader w GL_VERTEX_SHADER);
      Call_glDeleteShader (w_glCreateShader w GL_FRAGMENT_SHADER);
      Call_glGenVertexArrays 1;
      Call_glGenBuffers 1 ].
Proof.
  intros Hs. unfold started in Hs.
  apply andb_prop in Hs as [Hs Hg]. apply andb_prop in Hs as [Hi Hw].
  unfold startup_calls, pipeline_calls, stage_calls, link_calls, geometry_calls.
  rewrite Hi, Hw.
  destruct (fst (vertex_result w)), (fst (fragment_result w)), (fst (link_result w));
    repeat split.
Qed.

(** The state [main] returns in after a run of [n] passes. *)
Lemma final_state_eq (w : World) (n : nat) :
  started w = true ->
  let s := snd (cleanup (w_glCreateProgram w) (w_glGenVertexArrays w) (w_glGenBuffers w)
                  (frame_start w n)) in
  trace s =
    (startup_calls w ++ pipeline_calls w ++ geometry_calls w) ++
    Call_glfwWindowShouldClose :: flat_map (pass_calls w) (seq 0 n) ++ cleanup_calls w /\
  cerr s = pipeline_diag w /\
  cout s = flat_map (fun i => frame_report (angle_of_frame w i)) (seq 0 n) /\
  glfw_up s = false /\ window_up s = false /\
  programs s !! w_glCreateProgram w = None /\
  buffers s !! w_glGenBuffers w = None.
Proof.
  intros Hs. cbv zeta. rewrite cleanup_eq.
  cbn [snd trace cerr cout glfw_up window_up programs buffers].
  rewrite frame_start_trace, frame_start_cout by assumption.
  destruct (frame_start_kept w n) as (_ & _ & _ & _ & _ & _ & _ & _ & _ & ->).
  rewrite loop_entry_eq by assumption. cbn [cerr].
  rewrite !lookup_delete_eq. unfold cleanup_calls.
  rewrite <- !app_assoc. repeat split.
Qed.

(** ** Further properties: null-terminated sources *)

Lemma c_str_no_null (s : string) : has_null (c_str s) = false.
Proof.
  induction s as [|c s IH]; [reflexivity|].
  cbn [c_str]. destruct (Ascii.eqb c zero) eqn:Hc; [reflexivity|].
  cbn [has_null]. now rewrite Hc, IH.
Qed.

Lemma c_str_prefix (s : string) : exists rest, s = String.append (c_str s) rest.
Proof.
  induction s as [|c s (rest & IH)]; [now exists EmptyString|].
  cbn [c_str]. destruct (Ascii.eqb c zero).
  - now exists (String c s).
  - exists rest. change (String c s = String c (String.append (c_str s) rest)).
    now f_equal.
Qed.

Lemma c_str_without_null (s : string) : has_null s = false -> c_str s = s.
Proof.
  induction s as [|c s IH]; [reflexivity|].
  cbn [has_null c_str]. intros Hs. apply orb_false_elim in Hs as [Hc Hs].
  rewrite Hc. now rewrite IH.
Qed.

Lemma c_str_cut (before after : string) :
  has_null before = false ->
  c_str (String.append before (String zero after)) = before.
Proof.
  induction before as [|c before IH]; intros Hs.
  - change (c_str (String zero after) = EmptyString).
    cbn [c_str]. now rewrite Ascii.eqb_refl.
  - cbn [has_null] in Hs. apply orb_false_elim in Hs as [Hc Hs].
    change (c_str (String c (String.append before (String zero after))) = String c before).
    cbn [c_str]. rewrite Hc. now rewrite IH.
Qed.

Lemma source_in_log (w : World) (kind : ShaderKind) :
  started w = true ->
  In (Call_glShaderSource (w_glCreateShader w kind) 1 (c_str (loaded w (path_of kind))))
    (trace (loop_entry w)).
Proof.
  intros Hs. rewrite loop_entry_eq by assumption. cbn [trace].
  apply in_or_app. right. apply in_or_app. left.
  unfold pipeline_calls, stage_calls, stage_source.
  destruct kind; cbn [path_of].
  - apply in_or_app. right. apply in_or_app. left. cbn. tauto.
  - apply in_or_app. right. apply in_or_app. right. apply in_or_app. left. cbn. tauto.
Qed.

(** X1.  When [glfwInit] fails, [main] returns -1 at once: [glfwInit] is the
    only call it has made, the only output is the one line on [std::cerr],
    and nothing was created, so there is nothing to terminate. *)
Theorem glfwInit_failure_stops_at_once (w : World) (fuel : nat) :
  w_glfwInit w = false ->
  main w fuel =
  Some (-1,
        mkState [ Call_glfwInit ] 0 false false false 0%nat ∅ ∅ ∅ ∅ 0 ∅
          [ OutStr ("Failed to initialize GLFW" ++ newline) ] []).
Proof.
  intros Hi. rewrite main_eq. unfold started. rewrite Hi. cbn [andb].
  rewrite startup_eq. unfold startup_calls, startup_diag. rewrite Hi.
  reflexivity.
Qed.

Lemma glfwInit_failure_stops_at_once_witness :
  option_map fst (main w_no_glfw 5) = Some (-1).
Proof.
  rewrite (glfwInit_failure_stops_at_once w_no_glfw 5 eq_refl). reflexivity.
Defined.

(** X2.  A shader file that cannot be opened does not stop [main]: after the
    diagnostic of the load, the shader of that kind is given the empty string
    as its source, and [main] goes on to compile, link, reach the loop and
    return as it would have otherwise. *)
Theorem missing_shader_file_gives_empty_source (w : World) (kind : ShaderKind) (fuel : nat) :
  started w = true ->
  w_file w (path_of kind) = None ->
  In (Call_glShaderSource (w_glCreateShader w kind) 1 EmptyString) (trace (loop_entry w)) /\
  (exists before after,
     cerr (loop_entry w) =
       before ++
       [ OutStr "Failed to open shader file: "; OutStr (path_of kind); OutEndl ] ++
       after) /\
  is_Some (fst (setup w initial)) /\
  option_map fst (main w fuel) = if closes_by w fuel then Some 0 else None.
Proof.
  intros Hs Hfile. split; [|split; [|split]].
  - pose proof (source_in_log w kind Hs) as Hin.
    unfold loaded in Hin. now rewrite Hfile in Hin.
  - rewrite loop_entry_eq by assumption. cbn [cerr]. unfold pipeline_diag.
    destruct kind; cbn [path_of] in *.
    + exists []. eexists. unfold load_diag at 1. rewrite Hfile. reflexivity.
    + exists (load_diag w vertex_path). eexists.
      unfold load_diag at 2. rewrite Hfile. reflexivity.
  - rewrite setup_eq, Hs. eexists; reflexivity.
  - rewrite main_exit_code, Hs. reflexivity.
Qed.

Lemma missing_shader_file_gives_empty_source_witness :
  In (Call_glShaderSource (w_glCreateShader w_no_vertex_file GL_VERTEX_SHADER) 1 EmptyString)
    (trace (loop_entry w_no_vertex_file)) /\
  option_map fst (main w_no_vertex_file 2) = Some 0.
Proof.
  destruct (missing_shader_file_gives_empty_source w_no_vertex_file GL_VERTEX_SHADER 2
              eq_refl eq_refl) as (Hin & _ & _ & Hexit).
  split; [exact Hin | exact Hexit].
Defined.

(** X3.  The source a shader is compiled from is the contents of its file
    up to the first null character: it never holds a null, it is the
    beginning of the contents, it is the whole contents when they hold no
    null, and what follows a null is dropped. *)
Theorem shader_source_stops_at_null (w : World) (kind : ShaderKind) (contents : string) :
  started w = true ->
  w_file w (path_of kind) = Some contents ->
  let source := c_str contents in
  In (Call_glShaderSource (w_glCreateShader w kind) 1 source) (trace (loop_entry w)) /\
  has_null source = false /\
  (exists rest, contents = String.append source rest) /\
  (has_null contents = false -> source = contents) /\
  (forall before after,
     has_null before = false ->
     contents = String.append before (String zero after) ->
     source = before).
Proof.
  intros Hs Hfile. cbv zeta. split; [|split; [|split; [|split]]].
  - pose proof (source_in_log w kind Hs) as Hin.
    unfold loaded in Hin. now rewrite Hfile in Hin.
  - apply c_str_no_null.
  - apply c_str_prefix.
  - apply c_str_without_null.
  - intros before after Hbefore ->. now apply c_str_cut.
Qed.

Lemma shader_source_stops_at_null_witness :
  c_str (String.append "void main(){}" (String zero "garbage")) = "void main(){}".
Proof.
  destruct (shader_source_stops_at_null w_null_in_file GL_VERTEX_SHADER
              (String.append "void main(){}" (String zero "garbage")) eq_refl eq_refl)
    as (_ & _ & _ & _ & Hcut).
  apply (Hcut "void main(){}" "garbage"); reflexivity.
Defined.

(** ** Further properties: complete runs *)

Lemma passes_readings (w : World) (n : nat) :
  opens_of (flat_map (pass_calls w) (seq 0 n)) = [] /\
  lifecycle_of (flat_map (pass_calls w) (seq 0 n)) = [] /\
  viewports_of (flat_map (pass_calls w) (seq 0 n)) =
    flat_map (fun i => map (fun size => (0, 0, fst size, snd size))
                         (resizes_of (w_events w i))) (seq 0 n).
Proof.
  unfold opens_of, lifecycle_of, viewports_of. rewrite !flat_map_nested.
  split; [|split].
  - apply flat_map_nil_pointwise. intros i. apply (pass_calls_readings w i).
  - apply flat_map_nil_pointwise. intros i. apply (pass_calls_readings w i).
  - apply flat_map_ext. intros i. apply (pass_calls_readings w i).
Qed.

Lemma w_resizing_first_close : first_close w_resizing 1.
Proof.
  split; [reflexivity|]. intros j Hj. assert (j = 0%nat) as -> by lia. reflexivity.
Qed.

(** X4.  The two shader files are opened once each, the vertex shader's
    first, before the loop; no pass of the loop and no part of the clean-up
    opens a file again. *)
Theorem shader_files_read_once (w : World) (k fuel : nat) :
  started w = true ->
  first_close w k ->
  (k + 2 <= fuel)%nat ->
  (forall n,
     opens_of (trace (frame_start w n)) =
     [ "shaders/vertex_shader.glsl"; "shaders/fragment_shader.glsl" ]) /\
  exists s,
    main w fuel = Some (0, s) /\
    opens_of (trace s) = [ "shaders/vertex_shader.glsl"; "shaders/fragment_shader.glsl" ].
Proof.
  intros Hs Hfirst Hfuel.
  destruct (setup_calls_more_readings w Hs) as (Hsetup & _ & _).
  split.
  - intros n. rewrite frame_start_trace by assumption.
    destruct (passes_readings w n) as (Hpasses & _ & _).
    unfold opens_of in *.
    rewrite (flat_map_app _ (startup_calls w ++ pipeline_calls w ++ geometry_calls w)).
    cbn [flat_map app]. rewrite Hsetup, Hpasses. reflexivity.
  - eexists. split; [apply (main_run w k fuel); assumption|].
    destruct (final_state_eq w (S k) Hs) as (-> & _).
    destruct (passes_readings w (S k)) as (Hpasses & _ & _).
    unfold opens_of in *.
    rewrite (flat_map_app _ (startup_calls w ++ pipeline_calls w ++ geometry_calls w)).
    cbn [flat_map]. rewrite (flat_map_app _ (flat_map (pass_calls w) (seq 0 (S k)))).
    rewrite Hsetup, Hpasses. reflexivity.
Qed.

Lemma shader_files_read_once_witness :
  exists s, main w_demo 2 = Some (0, s) /\
            opens_of (trace s) = [ "shaders/vertex_shader.glsl"; "shaders/fragment_shader.glsl" ].
Proof.
  destruct (shader_files_read_once w_demo 0 2 eq_refl w_demo_first_close (le_n 2))
    as (_ & s & Hmain & Hopens).
  exists s. split; [exact Hmain | exact Hopens].
Defined.

(** X5.  The viewport is set by the resize callback and by nothing else: in
    a complete run the calls of [glViewport] are, in order, one
    [glViewport(0, 0, width, height)] for each resize the polls delivered up
    to and including the poll with the close request, whatever the sizes
    (a zero size included) and also for a resize that comes after the close
    request in the same poll. *)
Theorem resize_sets_viewport (w : World) (k fuel : nat) :
  started w = true ->
  first_close w k ->
  (k + 2 <= fuel)%nat ->
  exists s,
    main w fuel = Some (0, s) /\
    viewports_of (trace s) =
      flat_map (fun n => map (fun size => (0, 0, fst size, snd size))
                           (resizes_of (w_events w n)))
        (seq 0 (S k)).
Proof.
  intros Hs Hfirst Hfuel.
  eexists. split; [apply (main_run w k fuel); assumption|].
  destruct (final_state_eq w (S k) Hs) as (-> & _).
  destruct (setup_calls_more_readings w Hs) as (_ & Hsetup & _).
  destruct (passes_readings w (S k)) as (_ & _ & Hpasses).
  unfold viewports_of in *.
  rewrite (flat_map_app _ (startup_calls w ++ pipeline_calls w ++ geometry_calls w)).
  cbn [flat_map]. rewrite (flat_map_app _ (flat_map (pass_calls w) (seq 0 (S k)))).
  rewrite Hsetup, Hpasses. cbn [flat_map cleanup_calls app]. now rewrite app_nil_r.
Qed.

Lemma resize_sets_viewport_witness :
  exists s, main w_resizing 3 = Some (0, s) /\
            viewports_of (trace s) = [ (0, 0, 1024, 768); (0, 0, 0, 0); (0, 0, 640, 480) ].
Proof.
  destruct (resize_sets_viewport w_resizing 1 3 eq_refl w_resizing_first_close (le_n 3))
    as (s & Hmain & Hview).
  exists s. split; [exact Hmain | exact Hview].
Defined.

(** X6.  On the way to [return 0] everything that was made is released
    once: the calls that make or release something are, in order, those
    listed below; while the loop runs the library and the window are up and
    the program object exists; when [main] returns, the library and the
    window are down and neither the program object nor the buffer object is
    left. *)
Theorem resources_released_on_normal_exit (w : World) (k fuel : nat) :
  started w = true ->
  first_close w k ->
  (k + 2 <= fuel)%nat ->
  (forall n,
     glfw_up (frame_start w n) = true /\ window_up (frame_start w n) = true /\
     is_Some (programs (frame_start w n) !! w_glCreateProgram w)) /\
  exists s,
    main w fuel = Some (0, s) /\
    lifecycle_of (trace s) =
      [ Call_glfwInit;
        Call_glfwCreateWindow 800 600 "Rotating Triangle";
        Call_glCreateShader GL_VERTEX_SHADER;
        Call_glCreateShader GL_FRAGMENT_SHADER;
        Call_glCreateProgram;
        Call_glDeleteShader (w_glCreateShader w GL_VERTEX_SHADER);
        Call_glDeleteShader (w_glCreateShader w GL_FRAGMENT_SHADER);
        Call_glGenVertexArrays 1;
        Call_glGenBuffers 1;
        Call_glDeleteVertexArrays 1 (w_glGenVertexArrays w);
        Call_glDeleteBuffers 1 (w_glGenBuffers w);
        Call_glDeleteProgram (w_glCreateProgram w);
        Call_glfwTerminate ] /\
    glfw_up s = false /\ window_up s = false /\
    programs s !! w_glCreateProgram w = None /\
    buffers s !! w_glGenBuffers w = None.
Proof.
  intros Hs Hfirst Hfuel. split.
  - intros n.
    destruct (frame_start_kept w n) as (_ & -> & -> & _ & _ & _ & -> & _).
    rewrite loop_entry_eq by assumption. cbn [glfw_up window_up programs].
    repeat split. rewrite lookup_insert_eq. eexists; reflexivity.
  - eexists. split; [apply (main_run w k fuel); assumption|].
    destruct (final_state_eq w (S k) Hs) as (-> & _ & _ & Hg & Hw & Hp & Hb).
    split; [|repeat split; assumption].
    destruct (setup_calls_more_readings w Hs) as (_ & _ & Hsetup).
    destruct (passes_readings w (S k)) as (_ & Hpasses & _).
    unfold lifecycle_of in *.
    rewrite (flat_map_app _ (startup_calls w ++ pipeline_calls w ++ geometry_calls w)).
    cbn [flat_map is_lifecycle app].
    rewrite (flat_map_app _ (flat_map (pass_calls w) (seq 0 (S k)))).
    rewrite Hsetup, Hpasses. reflexivity.
Qed.

Lemma resources_released_on_normal_exit_witness :
  exists s, main w_demo 2 = Some (0, s) /\ glfw_up s = false /\ window_up s = false.
Proof.
  destruct (resources_released_on_normal_exit w_demo 0 2 eq_refl w_demo_first_close (le_n 2))
    as (_ & s & Hmain & _ & Hg & Hw & _).
  exists s. repeat split; assumption.
Defined.

(** ** Further properties: the uniform location, the console *)

Lemma callback_calls_no_use (es : list WindowEvent) : uses_of (callback_calls es) = [].
Proof. induction es as [|[|width height] es IH]; cbn; auto. Qed.

(** X7.  No uniform is set before the loop.  From the end of the first pass
    on, when the program has a uniform called [transform] and the GL accepts
    a matrix for it, its location holds the sixteen floats of the latest
    pass and no other location holds anything; when the program has none, or
    the GL does not accept a matrix for it, no uniform is ever set. *)
Theorem transform_uniform_holds_latest_matrix (w : World) (n : nat) :
  started w = true ->
  let raw := w_glGetUniformLocation w "transform" in
  - 2 ^ 31 <= raw < 2 ^ 31 ->
  let transform :=
    glm.rotate (w_cos w) (w_sin w) (glm.mat4_diag 1%f32) (angle_of_frame w n)
      (glm.mkvec3 0 0 1)%f32 in
  uniforms (frame_start w 0) = ∅ /\
  uniforms (frame_start w (S n)) =
    if (raw =? -1) || negb (w_glUniformMatrix4fv w raw) then ∅
    else {[ raw :=
              [ glm.v4x (glm.col0 transform); glm.v4y (glm.col0 transform);
                glm.v4z (glm.col0 transform); glm.v4w (glm.col0 transform);
                glm.v4x (glm.col1 transform); glm.v4y (glm.col1 transform);
                glm.v4z (glm.col1 transform); glm.v4w (glm.col1 transform);
                glm.v4x (glm.col2 transform); glm.v4y (glm.col2 transform);
                glm.v4z (glm.col2 transform); glm.v4w (glm.col2 transform);
                glm.v4x (glm.col3 transform); glm.v4y (glm.col3 transform);
                glm.v4z (glm.col3 transform); glm.v4w (glm.col3 transform) ] ]}.
Proof.
  intros Hs raw Hraw. subst raw. cbv zeta.
  assert (H0 : uniforms (frame_start w 0) = ∅).
  { rewrite frame_start_0, glfwWindowShouldClose_eq, loop_entry_eq by assumption.
    reflexivity. }
  split; [exact H0|].
  induction n as [|n IH]; rewrite frame_start_uniforms_S; cbv zeta;
    rewrite GLint_roundtrip by assumption;
    destruct ((w_glGetUniformLocation w "transform" =? -1) ||
              negb (w_glUniformMatrix4fv w (w_glGetUniformLocation w "transform"))).
  - exact H0.
  - rewrite H0. apply insert_empty.
  - exact IH.
  - rewrite IH. apply insert_singleton_eq.
Qed.

Lemma transform_uniform_holds_latest_matrix_witness :
  uniforms (frame_start w_demo 0) = ∅ /\
  uniforms (frame_start w_demo 1) =
    {[ 0 :=
         [ S754_finite true 15161439 (-24); S754_finite true 14367426 (-25); 0%f32; 0%f32;
           S754_finite false 14367426 (-25); S754_finite true 15161439 (-24); 0%f32; 0%f32;
           0%f32; 0%f32; 1%f32; 0%f32;
           0%f32; 0%f32; 0%f32; 1%f32 ] ]}.
Proof.
  assert (Hraw : - 2 ^ 31 <= w_glGetUniformLocation w_demo "transform" < 2 ^ 31).
  { change (w_glGetUniformLocation w_demo "transform") with 0. lia. }
  pose proof (transform_uniform_holds_latest_matrix w_demo 0 eq_refl Hraw) as H.
  cbv zeta in H. destruct H as [H0 H1].
  split; [exact H0|].
  rewrite H1. vm_compute. reflexivity.
Defined.

(** X8.  A location stored in the [GLuint] variable [transformLoc] and
    handed back as a [GLint] is the location [glGetUniformLocation] returned:
    a location from 0 on is stored as it is, a negative one as itself plus
    2^32 (so -1 is stored as 4294967295), and the way back undoes it. *)
Theorem transformLoc_keeps_location (location : Z) :
  - 2 ^ 31 <= location < 2 ^ 31 ->
  0 <= to_GLuint location < 2 ^ 32 /\
  (0 <= location -> to_GLuint location = location) /\
  (location < 0 -> to_GLuint location = location + 2 ^ 32) /\
  to_GLint (to_GLuint location) = location.
Proof.
  intros Hz. split; [|split; [|split]].
  - unfold to_GLuint. apply Z.mod_pos_bound. lia.
  - intros Hpos. unfold to_GLuint. apply Z.mod_small. lia.
  - intros Hneg. unfold to_GLuint. symmetry. apply (Z.mod_unique _ _ (-1)); lia.
  - now apply GLint_roundtrip.
Qed.

Lemma transformLoc_keeps_location_witness :
  to_GLuint (-1) = 4294967295 /\ to_GLint (to_GLuint (-1)) = -1.
Proof.
  destruct (transformLoc_keeps_location (-1) ltac:(lia)) as (_ & _ & Hneg & Hback).
  split; [apply Hneg; lia | exact Hback].
Defined.

(** X10.  The console output of a complete run: [std::cout] holds the two
    lines of each pass, in the order of the passes, and nothing else;
    [std::cerr] holds what the setup wrote, the loop and the clean-up add
    nothing to it. *)
Theorem console_output_of_a_run (w : World) (k fuel : nat) :
  started w = true ->
  first_close w k ->
  (k + 2 <= fuel)%nat ->
  exists s,
    main w fuel = Some (0, s) /\
    cout s =
      flat_map (fun n =>
                  let a := angle_of_frame w n in
                  [ OutStr "Rotation Angle (radians): "; OutFloat a; OutEndl;
                    OutStr "Rotation Angle (degrees): ";
                    OutFloat (a * (F32.of_Z 180 / glm.pi))%f32;
                    OutEndl ])
        (seq 0 (S k)) /\
    length (cout s) = (6 * S k)%nat /\
    cerr s = cerr (loop_entry w).
Proof.
  intros Hs Hfirst Hfuel.
  eexists. split; [apply (main_run w k fuel); assumption|].
  destruct (final_state_eq w (S k) Hs) as (_ & -> & -> & _).
  split; [reflexivity|]. split.
  - assert (Hlen : forall n start,
               length (flat_map (fun i => frame_report (angle_of_frame w i)) (seq start n)) =
               (6 * n)%nat).
    { induction n as [|n IH]; intros start; [reflexivity|].
      cbn [seq flat_map]. rewrite length_app, IH. cbn [frame_report length]. lia. }
    apply Hlen.
  - rewrite loop_entry_eq by assumption. reflexivity.
Qed.

Lemma console_output_of_a_run_witness :
  exists s, main w_demo 2 = Some (0, s) /\ length (cout s) = 6%nat.
Proof.
  destruct (console_output_of_a_run w_demo 0 2 eq_refl w_demo_first_close (le_n 2))
    as (s & Hmain & _ & Hlen & _).
  exists s. split; [exact Hmain | exact Hlen].
Defined.

(** X11.  A failed link is reported and survived: the log is asked for with
    a buffer of 512 characters, the last thing on [std::cerr] before the loop
    is the linking error with the log cut to at most 511 characters, the
    program object is kept with its failed status, every pass still uses it
    and draws (among the calls a pass adds to the log there is one
    [glUseProgram], of that program, and one [glDrawArrays]), and [main]
    returns as it would have otherwise. *)
Theorem link_failure_is_reported_not_fatal (w : World) (n fuel : nat) :
  started w = true ->
  fst (link_result w) = false ->
  In (Call_glGetProgramInfoLog (w_glCreateProgram w) 512) (trace (loop_entry w)) /\
  (exists before,
     cerr (loop_entry w) =
       before ++
       [ OutStr "Shader Program Linking Error: ";
         OutStr (copy_log 512 (snd (link_result w))); OutEndl ]) /\
  (String.length (copy_log 512 (snd (link_result w))) <= 511)%nat /\
  programs (frame_start w n) !! w_glCreateProgram w =
    Some (mkProgram [ w_glCreateShader w GL_VERTEX_SHADER;
                      w_glCreateShader w GL_FRAGMENT_SHADER ]
            false (snd (link_result w))) /\
  (exists pass,
     trace (frame_start w (S n)) = trace (frame_start w n) ++ pass /\
     uses_of pass = [ w_glCreateProgram w ] /\
     draws_of pass = [ (GL_TRIANGLES, 0, 3) ]) /\
  option_map fst (main w fuel) = if closes_by w fuel then Some 0 else None.
Proof.
  intros Hs Hlink. split; [|split; [|split; [|split; [|split]]]].
  - rewrite loop_entry_eq by assumption. cbn [trace].
    apply in_or_app. right. apply in_or_app. left.
    unfold pipeline_calls, link_calls. rewrite Hlink.
    do 3 (apply in_or_app; right). cbn. tauto.
  - rewrite loop_entry_eq by assumption. cbn [cerr]. unfold pipeline_diag.
    exists (load_diag w vertex_path ++ load_diag w fragment_path ++
            status_diag "Vertex Shader Compilation Error: " (vertex_result w) ++
            status_diag "Fragment Shader Compilation Error: " (fragment_result w)).
    unfold status_diag at 3. rewrite Hlink. now rewrite <- !app_assoc.
  - apply copy_log_bound.
  - destruct (frame_start_kept w n) as (_ & _ & _ & _ & _ & _ & -> & _).
    rewrite loop_entry_eq by assumption. cbn [programs].
    rewrite lookup_insert_eq, Hlink. reflexivity.
  - eexists. split; [apply frame_start_trace_S|].
    unfold uses_of, draws_of.
    rewrite !(flat_map_app _ (frame_calls _ _ _ _)), !(flat_map_app _ (callback_calls _)).
    fold (draws_of (callback_calls (w_events w (polls (frame_start w n))))).
    fold (uses_of (callback_calls (w_events w (polls (frame_start w n))))).
    destruct (callback_calls_readings (w_events w (polls (frame_start w n))))
      as (_ & _ & -> & _).
    rewrite callback_calls_no_use. split; reflexivity.
  - rewrite main_exit_code, Hs. reflexivity.
Qed.

Lemma link_failure_is_reported_not_fatal_witness :
  (exists pass,
     trace (frame_start w_link_fails 1) = trace (frame_start w_link_fails 0) ++ pass /\
     uses_of pass = [ 3 ] /\ draws_of pass = [ (GL_TRIANGLES, 0, 3) ]) /\
  option_map fst (main w_link_fails 2) = Some 0.
Proof.
  destruct (link_failure_is_reported_not_fatal w_link_fails 0 2 eq_refl eq_refl)
    as (_ & _ & _ & _ & Hpass & Hexit).
  split; [exact Hpass | exact Hexit].
Defined.
